(** * Media sanitization certificate backend: model of [main.py]

    A shallow embedding of the request handlers of the certificate service
    and of the helpers they use.  Python values that come out of
    [json.loads] are modelled by the type [json]; the exceptions of the
    language and its libraries by the type [error]; a Python expression
    that may raise one by the type [outcome]; code that talks to the
    outside world (the identity provider, the object storage, the table
    store, the clock and the entropy source) by the state-and-exception
    monad [M], which keeps a log of the client calls made so far and in
    which a handler can also raise an [HTTPException]. *)

From Stdlib Require Import ZArith List String Ascii Bool Lia DecimalString.
Import ListNotations.
Open Scope string_scope.
Open Scope Z_scope.
Set Warnings "-register-all".

(** ** Python values *)

(** The values [json.loads] produces.  Numbers are restricted to integers;
    a dict is an association list read from the front (the parser keeps one
    entry per key). *)
Inductive json : Type :=
| JNull
| JBool (b : bool)
| JInt (n : Z)
| JStr (s : string)
| JList (l : list json)
| JDict (d : list (string * json)).

(** [bool(v)]: None, False, 0, the empty string, list and dict are falsy. *)
Definition truthy (v : json) : bool :=
  match v with
  | JNull => false
  | JBool b => b
  | JInt n => negb (n =? 0)
  | JStr s => negb (s =? "")%string
  | JList l => match l with [] => false | _ => true end
  | JDict d => match d with [] => false | _ => true end
  end.

(** [type(v).__name__] *)
Definition type_name (v : json) : string :=
  match v with
  | JNull => "NoneType"
  | JBool _ => "bool"
  | JInt _ => "int"
  | JStr _ => "str"
  | JList _ => "list"
  | JDict _ => "dict"
  end.

Definition is_str (v : json) : bool :=
  match v with JStr _ => true | _ => false end.

(** ** Exceptions and raising expressions *)

Inductive error : Type :=
| AttributeError (ty attr : string)
| KeyError (key_repr : string)
| TypeError (msg : string)
| Exception (msg : string).

(** [str(e)] *)
Definition str_error (e : error) : string :=
  match e with
  | AttributeError ty attr =>
      "'" ++ ty ++ "' object has no attribute '" ++ attr ++ "'"
  | KeyError key_repr => key_repr
  | TypeError msg => msg
  | Exception msg => msg
  end.

Inductive outcome (A : Type) : Type :=
| Ret (a : A)
| Raise (e : error).
Arguments Ret {A} a.
Arguments Raise {A} e.

Definition obind {A B} (x : outcome A) (k : A -> outcome B) : outcome B :=
  match x with
  | Ret a => k a
  | Raise e => Raise e
  end.

Notation "'let?' x ':=' e 'in' k" := (obind e (fun x => k))
  (at level 10, x name, e at level 100, k at level 200).

(** [a or b]: the right operand is only looked at when the left one is
    falsy. *)
Definition por (a b : outcome json) : outcome json :=
  match a with
  | Ret v => if truthy v then Ret v else b
  | Raise e => Raise e
  end.

Notation "a 'OR' b" := (por a b) (at level 50, left associativity).

(** ** Dict and string methods *)

Fixpoint dict_get (d : list (string * json)) (key : string) : option json :=
  match d with
  | [] => None
  | (k, v) :: d' => if (k =? key)%string then Some v else dict_get d' key
  end.

(** [obj.get(key, default)] as a method call: any receiver that is not a
    dict has no attribute [get]. *)
Definition get (obj : json) (key : string) (default : json) : outcome json :=
  match obj with
  | JDict d => Ret (match dict_get d key with Some v => v | None => default end)
  | _ => Raise (AttributeError (type_name obj) "get")
  end.

(** [obj[key]] with a string key. *)
Definition getitem (obj : json) (key : string) : outcome json :=
  match obj with
  | JDict d =>
      match dict_get d key with
      | Some v => Ret v
      | None => Raise (KeyError ("'" ++ key ++ "'"))
      end
  | JList _ => Raise (TypeError "list indices must be integers or slices, not str")
  | JStr _ => Raise (TypeError "string indices must be integers, not 'str'")
  | _ => Raise (TypeError ("'" ++ type_name obj ++ "' object is not subscriptable"))
  end.

(** [obj[0]] *)
Definition getitem0 (obj : json) : outcome json :=
  match obj with
  | JList l =>
      match l with
      | v :: _ => Ret v
      | [] => Raise (Exception "list index out of range")
      end
  | JStr s =>
      match s with
      | String c _ => Ret (JStr (String c EmptyString))
      | EmptyString => Raise (Exception "string index out of range")
      end
  | JDict _ => Raise (KeyError "0")
  | _ => Raise (TypeError ("'" ++ type_name obj ++ "' object is not subscriptable"))
  end.

(** [obj.keys()] *)
Definition keys (obj : json) : outcome (list string) :=
  match obj with
  | JDict d => Ret (map fst d)
  | _ => Raise (AttributeError (type_name obj) "keys")
  end.

(** [s.startswith(p)] *)
Definition startswith (s p : string) : bool := String.prefix p s.

(** [s.replace(old, new)] for a non-empty [old]: occurrences are replaced
    from the left and do not overlap.  [skip] counts the characters of a
    match that are still to be dropped. *)
Fixpoint replace_from (skip : nat) (s old new : string) : string :=
  match s with
  | EmptyString => EmptyString
  | String c s' =>
      match skip with
      | S n => replace_from n s' old new
      | O =>
          if String.prefix old s
          then new ++ replace_from (Nat.pred (String.length old)) s' old new
          else String c (replace_from O s' old new)
      end
  end.

Definition replace (s old new : string) : string := replace_from O s old new.

(** [s.rstrip('/')] *)
Fixpoint rstrip_slash (s : string) : string :=
  match s with
  | EmptyString => EmptyString
  | String c s' =>
      match rstrip_slash s' with
      | EmptyString => if (c =? "/")%char then EmptyString else String c EmptyString
      | r => String c r
      end
  end.

(** [sep.join(parts)] *)
Fixpoint join (sep : string) (parts : list string) : string :=
  match parts with
  | [] => ""
  | [p] => p
  | p :: ps => p ++ sep ++ join sep ps
  end.

(** [s in t]: the text [s] occurs somewhere inside [t]. *)
Fixpoint contains (t s : string) : bool :=
  String.prefix s t ||
  match t with
  | EmptyString => false
  | String _ t' => contains t' s
  end.

(** ** Field resolution in [generate_certificate] *)

(** [data.get(section, {}).get(key)] *)
Definition nested_get (data : json) (section key : string) : outcome json :=
  let? sec := get data section (JDict []) in get sec key JNull.

(** The output fields that have both a flat top-level key and a key inside
    a nested section. *)
Inductive field : Type :=
| f_model
| f_manufacturer
| f_serial_number
| f_media_type
| f_sanitization_method
| f_sanitization_technique
| f_tool_used
| f_verification_method.

(** The expression the handler evaluates for each of them. *)
Definition resolve (f : field) (data : json) : outcome json :=
  match f with
  | f_model =>
      get data "model" JNull OR
      nested_get data "media_information" "model" OR
      Ret (JStr "Unknown_Device")
  | f_manufacturer =>
      get data "manufacturer" JNull OR
      nested_get data "media_information" "manufacturer" OR
      Ret (JStr "Unknown")
  | f_serial_number =>
      get data "serial_number" JNull OR
      nested_get data "media_information" "serial_number" OR
      Ret (JStr "Unknown")
  | f_media_type =>
      get data "media_type" JNull OR
      nested_get data "media_information" "media_type"
  | f_sanitization_method =>
      get data "sanitization_method" JNull OR
      nested_get data "tool_information" "method"
  | f_sanitization_technique =>
      get data "sanitization_technique" JNull OR
      nested_get data "tool_information" "technique"
  | f_tool_used =>
      get data "tool_used" JNull OR
      nested_get data "tool_information" "name"
  | f_verification_method =>
      get data "verification_method" JNull OR
      nested_get data "tool_information" "verification_method"
  end.

(** Where each field is read from, and what it resolves to when neither
    place has it. *)
Definition top_key (f : field) : string :=
  match f with
  | f_model => "model"
  | f_manufacturer => "manufacturer"
  | f_serial_number => "serial_number"
  | f_media_type => "media_type"
  | f_sanitization_method => "sanitization_method"
  | f_sanitization_technique => "sanitization_technique"
  | f_tool_used => "tool_used"
  | f_verification_method => "verification_method"
  end.

Definition section_of (f : field) : string :=
  match f with
  | f_model | f_manufacturer | f_serial_number | f_media_type =>
      "media_information"
  | _ => "tool_information"
  end.

Definition nested_key (f : field) : string :=
  match f with
  | f_model => "model"
  | f_manufacturer => "manufacturer"
  | f_serial_number => "serial_number"
  | f_media_type => "media_type"
  | f_sanitization_method => "method"
  | f_sanitization_technique => "technique"
  | f_tool_used => "name"
  | f_verification_method => "verification_method"
  end.

Definition placeholder (f : field) : json :=
  match f with
  | f_model => JStr "Unknown_Device"
  | f_manufacturer | f_serial_number => JStr "Unknown"
  | _ => JNull
  end.

(** ** The flowables of the certificate page *)

Inductive style : Type :=
| title_style
| section_heading_style
| label_style
| value_style
| success_style.

(** A table cell is a paragraph or a bare string; the text handed to
    [Paragraph] is kept as a Python value.  Column widths and table styles
    only affect the layout and are left out. *)
Inductive cell : Type :=
| Paragraph (text : json) (st : style)
| Bare (s : string).

Inductive flowable : Type :=
| Flow (c : cell)
| Spacer (width height : Z)
| Table (data : list (list cell)).

Definition bytes : Type := string.

(** [len(v)] *)
Definition len (v : json) : outcome Z :=
  match v with
  | JStr s => Ret (Z.of_nat (String.length s))
  | JList l => Ret (Z.of_nat (List.length l))
  | JDict d => Ret (Z.of_nat (List.length d))
  | _ => Raise (TypeError ("object of type '" ++ type_name v ++ "' has no len()"))
  end.

Definition str_of_nat (n : nat) : string :=
  NilZero.string_of_int (Z.to_int (Z.of_nat n)).

(** The items of a list as strings, as [str.join] wants them. *)
Fixpoint str_items (i : nat) (l : list json) : outcome (list string) :=
  match l with
  | [] => Ret []
  | JStr s :: l' => let? r := str_items (S i) l' in Ret (s :: r)
  | v :: _ =>
      Raise (TypeError ("sequence item " ++ str_of_nat i ++
                        ": expected str instance, " ++ type_name v ++ " found"))
  end.

(** [sep.join(v)]: a list is joined item by item, a string character by
    character, a dict key by key; anything else is not iterable. *)
Definition join_value (sep : string) (v : json) : outcome string :=
  match v with
  | JList l => let? items := str_items O l in Ret (join sep items)
  | JStr s =>
      Ret (join sep (map (fun c => String c EmptyString) (list_ascii_of_string s)))
  | JDict d => Ret (join sep (map fst d))
  | _ => Raise (TypeError "can only join an iterable")
  end.

(** ** The outside world *)

Inductive payload : Type :=
| Data (file_data : bytes)
| Json (data : json).

Definition headers_t : Type := list (string * string).

(** What [requests] hands back: the status, the body text and the result
    of [response.json()]. *)
Record Response : Type := mkResponse {
  status_code : Z;
  text : string;
  json_body : outcome json
}.

(** The collaborators of one process: the HTTP calls may return a response
    or raise; the [n]-th 16-byte draw of the entropy source is given as a
    big-endian integer and the [n]-th clock reading in ISO format. *)
Record World : Type := mkWorld {
  requests_get : string -> list (string * json) -> headers_t -> outcome Response;
  requests_post : string -> payload -> headers_t -> outcome Response;
  os_urandom16 : nat -> Z;
  datetime_now_isoformat : nat -> string
}.

(** The client methods a handler can invoke. *)
Inductive call : Type :=
| verify_user_call (token : string)
| upload_file_call (bucket filename : string) (file_data : bytes)
| insert_record_call (table : string) (data : json)
| select_records_call (table : string) (params : list (string * json)).

Record state : Type := mkState {
  log : list (call * outcome Response);
  draws : nat;
  ticks : nat
}.

(** What can propagate out of handler code: the framework's
    [HTTPException], or an error of the language and its libraries. *)
Inductive exn : Type :=
| HTTPException (status_code : Z) (detail : string)
| Error (e : error).

Inductive result (A : Type) : Type :=
| Done (a : A)
| Throw (x : exn).
Arguments Done {A} a.
Arguments Throw {A} x.

Definition M (A : Type) : Type := World -> state -> result A * state.

Definition ret {A} (a : A) : M A := fun _ s => (Done a, s).

Definition raise {A} (x : exn) : M A := fun _ s => (Throw x, s).

Definition lift {A} (o : outcome A) : M A :=
  fun _ s =>
    match o with
    | Ret a => (Done a, s)
    | Raise e => (Throw (Error e), s)
    end.

Definition bind {A B} (m : M A) (k : A -> M B) : M B :=
  fun W s =>
    match m W s with
    | (Done a, s') => k a W s'
    | (Throw x, s') => (Throw x, s')
    end.

Notation "x <- e ;; k" := (bind e (fun x => k))
  (at level 61, e at next level, right associativity).

(** The two [except] clauses every handler ends with: an [HTTPException]
    is re-raised as it is, any other exception becomes an [HTTPException]
    with the given status and the exception's message. *)
Definition try_except {A} (body : M A) (status : Z) : M A :=
  fun W s =>
    match body W s with
    | (Done a, s') => (Done a, s')
    | (Throw (HTTPException c d), s') => (Throw (HTTPException c d), s')
    | (Throw (Error e), s') => (Throw (HTTPException status (str_error e)), s')
    end.

(** The HTTP status the framework answers with. *)
Definition http_status {A} (r : result A) : Z :=
  match r with
  | Done _ => 200
  | Throw (HTTPException c _) => c
  | Throw (Error _) => 500
  end.

(** An HTTP call on behalf of the client method [c]: the call and what
    came back are appended to the log. *)
Definition logged (c : call) (r : outcome Response) : M Response :=
  fun W s => lift r W (mkState (log s ++ [(c, r)]) (draws s) (ticks s)).

Definition http_get (c : call) (url : string) (params : list (string * json))
    (headers : headers_t) : M Response :=
  fun W s => logged c (requests_get W url params headers) W s.

Definition http_post (c : call) (url : string) (body : payload)
    (headers : headers_t) : M Response :=
  fun W s => logged c (requests_post W url body headers) W s.

(** [datetime.now().isoformat()] *)
Definition now_isoformat : M string :=
  fun W s =>
    (Done (datetime_now_isoformat W (ticks s)),
     mkState (log s) (draws s) (S (ticks s))).

(** ** [uuid.uuid4()] and its string form *)

Definition hexdigit (d : Z) : ascii :=
  nth (Z.to_nat d) (list_ascii_of_string "0123456789abcdef") "0"%char.

(** [k] hexadecimal digits of [n], least significant first. *)
Fixpoint hex_le (k : nat) (n : Z) : list ascii :=
  match k with
  | O => []
  | S k' => hexdigit (n mod 16) :: hex_le k' (n / 16)
  end.

(** ['%032x' % n] *)
Definition hex32 (n : Z) : list ascii := rev (hex_le 32 n).

(** The integer of a version-4 UUID made from 16 random bytes: the
    variant and version bits are forced, the other 122 bits are kept. *)
Definition uuid4_int (rand : Z) : Z :=
  let int := rand mod 2 ^ 128 in
  let int := Z.land int (Z.lnot (Z.shiftl 0xc000 48)) in
  let int := Z.lor int (Z.shiftl 0x8000 48) in
  let int := Z.land int (Z.lnot (Z.shiftl 0xf000 64)) in
  Z.lor int (Z.shiftl 4 76).

(** [str(UUID(int=n))]: the digits in groups of 8-4-4-4-12. *)
Definition uuid_str (n : Z) : string :=
  let hex := hex32 n in
  string_of_list_ascii
    (firstn 8 hex ++ "-"%char ::
     firstn 4 (skipn 8 hex) ++ "-"%char ::
     firstn 4 (skipn 12 hex) ++ "-"%char ::
     firstn 4 (skipn 16 hex) ++ "-"%char ::
     skipn 20 hex).

(** [str(uuid.uuid4())] *)
Definition uuid4 : M string :=
  fun W s =>
    (Done (uuid_str (uuid4_int (os_urandom16 W (draws s)))),
     mkState (log s) (S (draws s)) (ticks s)).




(** ** Vocabulary of the properties *)

(** The client calls a run added to the log. *)
Definition new_calls (s s' : state) : list (call * outcome Response) :=
  skipn (List.length (log s)) (log s').

(** A status outside 200..299. *)
Definition non_2xx (code : Z) : Prop := ~ (200 <= code < 300).

Definition is_insert_call (c : call) : bool :=
  match c with
  | insert_record_call _ _ => true
  | _ => false
  end.

(** [dict_del d k]: the dict without the key [k]. *)
Fixpoint dict_del (d : list (string * json)) (k : string) : list (string * json) :=
  match d with
  | [] => []
  | (k', v) :: d' =>
      if (k' =? k)%string then dict_del d' k else (k', v) :: dict_del d' k
  end.

(** The key is missing or holds a falsy value. *)
Definition absent_or_falsy (d : list (string * json)) (k : string) : bool :=
  match dict_get d k with
  | Some v => negb (truthy v)
  | None => true
  end.

(** The table rows of a story, and the texts of all its paragraphs. *)
Definition rows (st : list flowable) : list (list cell) :=
  flat_map (fun f => match f with Table data => data | _ => [] end) st.



(** The client method behind a logged call. *)
Inductive call_kind : Type :=
| verify_kind
| upload_kind
| insert_kind
| select_kind.

Definition kind_of (c : call) : call_kind :=
  match c with
  | verify_user_call _ => verify_kind
  | upload_file_call _ _ _ => upload_kind
  | insert_record_call _ _ => insert_kind
  | select_records_call _ _ => select_kind
  end.

Definition kinds (l : list (call * outcome Response)) : list call_kind :=
  map (fun entry => kind_of (fst entry)) l.

Definition is_dict (v : json) : bool :=
  match v with JDict _ => true | _ => false end.

(** The string with every [c] turned into [c']. *)
Fixpoint subst_char (c c' : ascii) (s : string) : string :=
  match s with
  | EmptyString => EmptyString
  | String x s' => String (if (x =? c)%char then c' else x) (subst_char c c' s')
  end.

(** [n] slashes. *)
Fixpoint slashes (n : nat) : string :=
  match n with
  | O => EmptyString
  | S n' => String "/" (slashes n')
  end.

(** The sections the page reads only through [get_value], and the ones it
    calls [.get] on. *)
Definition lenient_sections : list string :=
  ["certificate_metadata"; "tool_information"; "media_information";
   "compliance_information"].


(** The keys of the record handed to the table store, in order. *)
Definition record_keys : list string :=
  ["certificate_id"; "user_id"; "user_email"; "manufacturer"; "model";
   "serial_number"; "property_number"; "media_type"; "media_source";
   "pre_sanitization_confidentiality"; "sanitization_method";
   "sanitization_technique"; "tool_used"; "verification_method";
   "post_sanitization_confidentiality"; "post_sanitization_destination";
   "certificate_metadata"; "tool_information"; "sanitization_event";
   "media_information"; "sanitization_details"; "host_system_information";
   "compliance_information"; "pdf_url"; "created_at"].

(** The seven nested sections of the input. *)
Definition section_names : list string :=
  ["certificate_metadata"; "tool_information"; "sanitization_event";
   "media_information"; "sanitization_details"; "host_system_information";
   "compliance_information"].

(** ** Sample worlds *)

(** A world given by what the identity provider, the storage upload, the
    table insert and the table select answer: the only GET without query
    parameters is the identity check, the only POST with a binary body is
    the upload.  The [n]-th entropy draw is [n]. *)
Definition sample_world (auth upload insert select : outcome Response) : World :=
  mkWorld
    (fun _ params _ => match params with [] => auth | _ => select end)
    (fun _ body _ => match body with Data _ => upload | Json _ => insert end)
    (fun n => Z.of_nat n)
    (fun _ => "2025-01-01T00:00:00").

Definition answers (code : Z) (text : string) (body : json) : outcome Response :=
  Ret (mkResponse code text (Ret body)).

Definition sample_user : json :=
  JDict [("id", JStr "user-1"); ("email", JStr "operator@example.com")].

(** The input of the model-and-manufacturer scenario. *)
Definition ssd500_acme : json :=
  JDict [("media_information", JDict [("model", JStr "SSD-500")]);
         ("manufacturer", JStr "Acme")].

Definition start : state := mkState [] 0 0.

Definition sample_repr (v : json) : string := "[...]".

Definition sample_doc_build (st : list flowable) : outcome bytes := Ret "%PDF-1.4".

Definition strict_str (v : json) : option string :=
  Some "Input should be a valid string".

Definition sample_url : string := "https://project.supabase.co/".

Definition sample_key : string := "service-key".

(** ** The service *)

Section Service.

(** The configuration read from the environment. *)
Variable SUPABASE_URL : string.
Variable SUPABASE_KEY : string.

(** Library behaviour the handlers rely on and this file does not look
    into: [str] of a list or dict, the PDF engine behind [doc.build], and
    whether the response model rejects a value that is not a string where
    a [str] field is declared ([Some] validation message) or converts it
    with [str] ([None]). *)
Variable repr_container : json -> string.
Variable doc_build : list flowable -> outcome bytes.
Variable str_field_error : json -> option string.

(** [str(v)] *)
Definition str (v : json) : string :=
  match v with
  | JNull => "None"
  | JBool true => "True"
  | JBool false => "False"
  | JInt n => NilZero.string_of_int (Z.to_int n)
  | JStr s => s
  | JList _ | JDict _ => repr_container v
  end.

(** A declared [str] field of the response model. *)
Definition str_field (v : json) : outcome string :=
  match v with
  | JStr s => Ret s
  | _ =>
      match str_field_error v with
      | Some msg => Raise (Exception msg)
      | None => Ret (str v)
      end
  end.

(** [v.replace(old, new)] as a method call. *)
Definition replace_method (v : json) (old new : string) : outcome json :=
  match v with
  | JStr s => Ret (JStr (replace s old new))
  | _ => Raise (AttributeError (type_name v) "replace")
  end.

(** *** The Supabase client *)

Record SupabaseClient : Type := mkClient {
  url : string;
  key : string;
  headers : headers_t
}.

Definition SupabaseClient_init (url key : string) : SupabaseClient :=
  mkClient (rstrip_slash url) key
    [("apikey", key);
     ("Authorization", "Bearer " ++ key);
     ("Content-Type", "application/json")].

Definition verify_user (self : SupabaseClient) (token : string) : M json :=
  let headers := [("apikey", key self);
                  ("Authorization", "Bearer " ++ token);
                  ("Content-Type", "application/json")] in
  response <- http_get (verify_user_call token)
                (url self ++ "/auth/v1/user") [] headers ;;
  if status_code response =? 200
  then lift (json_body response)
  else ret JNull.

Definition upload_file (self : SupabaseClient) (bucket filename : string)
    (file_data : bytes) : M Response :=
  let upload_url := url self ++ "/storage/v1/object/" ++ bucket ++ "/" ++ filename in
  let headers := [("apikey", key self);
                  ("Authorization", "Bearer " ++ key self);
                  ("Content-Type", "application/pdf")] in
  http_post (upload_file_call bucket filename file_data)
    upload_url (Data file_data) headers.

Definition get_public_url (self : SupabaseClient) (bucket filename : string)
    : string :=
  url self ++ "/storage/v1/object/public/" ++ bucket ++ "/" ++ filename.

Definition insert_record (self : SupabaseClient) (table : string)
    (data : json) : M Response :=
  let insert_url := url self ++ "/rest/v1/" ++ table in
  http_post (insert_record_call table data) insert_url (Json data) (headers self).

(** [params[k] = v] *)
Fixpoint dict_set (d : list (string * json)) (k : string) (v : json)
    : list (string * json) :=
  match d with
  | [] => [(k, v)]
  | (k', v') :: d' =>
      if (k' =? k)%string then (k, v) :: d' else (k', v') :: dict_set d' k v
  end.

Definition select_records (self : SupabaseClient) (table : string)
    (filters : list (string * json)) (limit offset : option Z) : M Response :=
  let select_url := url self ++ "/rest/v1/" ++ table in
  let params :=
    fold_left (fun params kv => dict_set params (fst kv) (JStr ("eq." ++ str (snd kv))))
      filters [] in
  let params :=
    match limit with
    | Some n => if truthy (JInt n) then dict_set params "limit" (JInt n) else params
    | None => params
    end in
  let params :=
    match offset with
    | Some n => if truthy (JInt n) then dict_set params "offset" (JInt n) else params
    | None => params
    end in
  http_get (select_records_call table params) select_url params (headers self).

Definition supabase : SupabaseClient :=
  SupabaseClient_init SUPABASE_URL SUPABASE_KEY.

(** *** The certificate page *)

(** The helper local to [generate_certificate_pdf]. *)
Definition get_value (obj : json) (key : string) (default : json) : json :=
  match obj with
  | JDict d =>
      let val := match dict_get d key with Some v => v | None => default end in
      if truthy val then JStr (str val) else default
  | _ => default
  end.

Definition NA : json := JStr "N/A".

Definition label (s : string) : cell := Paragraph (JStr s) label_style.

(** The list of flowables [generate_certificate_pdf] hands to
    [doc.build]. *)
Definition story (data : json) (certificate_id : string) : outcome (list flowable) :=
  let? cert_metadata := get data "certificate_metadata" (JDict []) in
  let? tool_info := get data "tool_information" (JDict []) in
  let? sanitization_event := get data "sanitization_event" (JDict []) in
  let? media_info := get data "media_information" (JDict []) in
  let? sanitization_details := get data "sanitization_details" (JDict []) in
  let? host_info := get data "host_system_information" (JDict []) in
  let? compliance_info := get data "compliance_information" (JDict []) in
  let cert_info_data :=
    [[label "Certificate ID:";
      Paragraph (get_value cert_metadata "certificate_id" (JStr certificate_id)) value_style;
      label "Generated Timestamp:";
      Paragraph (get_value cert_metadata "generated_timestamp" NA) value_style];
     [label "Version:";
      Paragraph (get_value cert_metadata "version" NA) value_style;
      label "NIST Reference:";
      Paragraph (get_value cert_metadata "nist_reference" NA) value_style]] in
  let tool_data :=
    [[label "Name:";
      Paragraph (get_value tool_info "name" NA) value_style;
      label "Version:";
      Paragraph (get_value tool_info "version" NA) value_style];
     [label "Method:";
      Paragraph (get_value tool_info "method" NA) value_style;
      label "Technique:";
      Paragraph (get_value tool_info "technique" NA) value_style];
     [label "Verification Method:";
      Paragraph (get_value tool_info "verification_method" NA) value_style;
      label "";
      Paragraph (JStr "") value_style]] in
  let? operator := get sanitization_event "operator" (JDict []) in
  let event_data :=
    [[label "Timestamp:";
      Paragraph (get_value sanitization_event "timestamp" NA) value_style;
      label "Status:";
      Paragraph (get_value sanitization_event "status" NA) success_style];
     [label "System User:";
      Paragraph (get_value operator "system_user" NA) value_style;
      label "Hostname:";
      Paragraph (get_value operator "hostname" NA) value_style]] in
  let media_data :=
    [[label "Device Path:";
      Paragraph (get_value media_info "device_path" NA) value_style;
      label "Manufacturer:";
      Paragraph (get_value media_info "manufacturer" NA) value_style];
     [label "Model:";
      Paragraph (get_value media_info "model" NA) value_style;
      label "Serial Number:";
      Paragraph (get_value media_info "serial_number" NA) value_style];
     [label "Firmware Version:";
      Paragraph (get_value media_info "firmware_version" NA) value_style;
      label "Interface Type:";
      Paragraph (get_value media_info "interface_type" NA) value_style];
     [label "Media Type:";
      Paragraph (get_value media_info "media_type" NA) value_style;
      label "Device Type:";
      Paragraph (get_value media_info "device_type" NA) value_style];
     [label "Capacity (GB):";
      Paragraph (get_value media_info "capacity_gb" NA) value_style;
      label "Capacity (Bytes):";
      Paragraph (get_value media_info "capacity_bytes" NA) value_style];
     [label "Pre-Sanitization Class:";
      Paragraph (get_value media_info "pre_sanitization_classification" NA) value_style;
      label "Post-Sanitization Class:";
      Paragraph (get_value media_info "post_sanitization_classification" NA) value_style]] in
  let? passes := get sanitization_details "passes_performed" (JList []) in
  let? passes_count :=
    if truthy passes
    then let? n := len passes in Ret (JStr (str (JInt n)))
    else Ret NA in
  let san_det_data :=
    [[label "Passes Performed:";
      Paragraph passes_count value_style;
      label "Verification Status:";
      Paragraph (get_value sanitization_details "verification_status" NA) success_style];
     [label "Verification Details:";
      Paragraph (get_value sanitization_details "verification_details" NA) value_style;
      label "";
      Paragraph (JStr "") value_style]] in
  let? tools_used := get host_info "tools_used" (JList []) in
  let? tools_str :=
    if truthy tools_used
    then let? s := join_value ", " tools_used in Ret (JStr s)
    else Ret NA in
  let host_data :=
    [[label "Hostname:";
      Paragraph (get_value host_info "hostname" NA) value_style;
      label "Operating System:";
      Paragraph (get_value host_info "operating_system" NA) value_style];
     [label "Kernel Version:";
      Paragraph (get_value host_info "kernel_version" NA) value_style;
      label "Architecture:";
      Paragraph (get_value host_info "architecture" NA) value_style];
     [label "System Manufacturer:";
      Paragraph (get_value host_info "system_manufacturer" NA) value_style;
      label "System Model:";
      Paragraph (get_value host_info "system_model" NA) value_style];
     [label "System Serial:";
      Paragraph (get_value host_info "system_serial" NA) value_style;
      label "Execution Environment:";
      Paragraph (get_value host_info "execution_environment" NA) value_style];
     [label "Tools Used:";
      Paragraph tools_str value_style;
      label "";
      Paragraph (JStr "") value_style]] in
  let comp_data :=
    [[label "Standard:";
      Paragraph (get_value compliance_info "standard" NA) value_style;
      label "Sanitization Method:";
      Paragraph (get_value compliance_info "sanitization_method" NA) value_style];
     [label "Residual Risk Assessment:";
      Paragraph (get_value compliance_info "residual_risk_assessment" NA) value_style;
      label "Recommended Follow-up:";
      Paragraph (get_value compliance_info "recommended_follow_up" NA) value_style]] in
  Ret [Flow (Paragraph (JStr "Media Sanitization Certificate") title_style);
       Spacer 1 10;
       Table [[Bare ""]];
       Spacer 1 15;
       Flow (Paragraph (JStr "Certificate Information") section_heading_style);
       Table cert_info_data;
       Spacer 1 12;
       Flow (Paragraph (JStr "Tool Information") section_heading_style);
       Table tool_data;
       Spacer 1 12;
       Flow (Paragraph (JStr "Sanitization Event") section_heading_style);
       Table event_data;
       Spacer 1 12;
       Flow (Paragraph (JStr "Media Information") section_heading_style);
       Table media_data;
       Spacer 1 12;
       Flow (Paragraph (JStr "Sanitization Details") section_heading_style);
       Table san_det_data;
       Spacer 1 12;
       Flow (Paragraph (JStr "Host System Information") section_heading_style);
       Table host_data;
       Spacer 1 12;
       Flow (Paragraph (JStr "Compliance Information") section_heading_style);
       Table comp_data].

(** Errors the PDF library raises on the text of a paragraph are counted
    among those of [doc_build]. *)
Definition generate_certificate_pdf (data : json) (certificate_id : string)
    (user_email : json) : outcome bytes :=
  let? story := story data certificate_id in
  doc_build story.

(** *** The handlers *)

Record Request : Type := mkRequest {
  request_json : outcome json
}.

Record CertificateResponse : Type := mkCertificateResponse {
  certificate_id : string;
  pdf_url : string;
  created_at : string;
  user_id : string;
  device_model : string;
  message : string
}.

(** The guard every protected handler starts with, and the token it
    extracts: the header must be there, non-empty, and start with the
    bearer prefix. *)
Definition bearer_token (authorization : option string) (detail : string)
    : M string :=
  match authorization with
  | None => raise (HTTPException 401 detail)
  | Some a =>
      if negb (truthy (JStr a)) || negb (startswith a "Bearer ")
      then raise (HTTPException 401 detail)
      else ret (replace a "Bearer " "")
  end.

(** [code not in [200, 201]] *)
Definition not_in_200_201 (code : Z) : bool :=
  negb ((code =? 200) || (code =? 201)).

(** [m.replace(" ", "_").replace("/", "_")] on a string. *)
Definition safe (m : string) : string := replace (replace m " " "_") "/" "_".

(** The same expression on whatever [device_model] turned out to be. *)
Definition safe_model_of (device_model : json) : outcome json :=
  let? m := replace_method device_model " " "_" in
  replace_method m "/" "_".

(** The entries of [certificate_data] that are read off the input, in the
    order the handler evaluates them. *)
Definition certificate_fields (data : json) (certificate_id : string)
    (user_id user_email device_model : json) : outcome (list (string * json)) :=
  let? manufacturer := resolve f_manufacturer data in
  let? serial_number := resolve f_serial_number data in
  let? property_number := get data "property_number" JNull in
  let? media_type := resolve f_media_type data in
  let? media_source := get data "media_source" JNull in
  let? pre_confidentiality := get data "pre_sanitization_confidentiality" JNull in
  let? sanitization_method := resolve f_sanitization_method data in
  let? sanitization_technique := resolve f_sanitization_technique data in
  let? tool_used := resolve f_tool_used data in
  let? verification_method := resolve f_verification_method data in
  let? post_confidentiality := get data "post_sanitization_confidentiality" JNull in
  let? post_destination := get data "post_sanitization_destination" JNull in
  let? certificate_metadata := get data "certificate_metadata" JNull in
  let? tool_information := get data "tool_information" JNull in
  let? sanitization_event := get data "sanitization_event" JNull in
  let? media_information := get data "media_information" JNull in
  let? sanitization_details := get data "sanitization_details" JNull in
  let? host_system_information := get data "host_system_information" JNull in
  let? compliance_information := get data "compliance_information" JNull in
  Ret [("certificate_id", JStr certificate_id);
       ("user_id", user_id);
       ("user_email", user_email);
       ("manufacturer", manufacturer);
       ("model", device_model);
       ("serial_number", serial_number);
       ("property_number", property_number);
       ("media_type", media_type);
       ("media_source", media_source);
       ("pre_sanitization_confidentiality", pre_confidentiality);
       ("sanitization_method", sanitization_method);
       ("sanitization_technique", sanitization_technique);
       ("tool_used", tool_used);
       ("verification_method", verification_method);
       ("post_sanitization_confidentiality", post_confidentiality);
       ("post_sanitization_destination", post_destination);
       ("certificate_metadata", certificate_metadata);
       ("tool_information", tool_information);
       ("sanitization_event", sanitization_event);
       ("media_information", media_information);
       ("sanitization_details", sanitization_details);
       ("host_system_information", host_system_information);
       ("compliance_information", compliance_information)].

(** The [try] block of [POST /generate-certificate]. *)
Definition generate_certificate_try (request : Request)
    (authorization : option string) : M CertificateResponse :=
  token <- bearer_token authorization "Missing or invalid authorization header" ;;
  user_info <- verify_user supabase token ;;
  if negb (truthy user_info)
  then raise (HTTPException 401 "Invalid authentication token")
  else
  user_id <- lift (getitem user_info "id") ;;
  user_email <- lift (get user_info "email" (JStr "unknown@example.com")) ;;
  data <- lift (request_json request) ;;
  _ <- lift (keys data) ;;
  certificate_id <- uuid4 ;;
  pdf_bytes <- lift (generate_certificate_pdf data certificate_id user_email) ;;
  device_model <- lift (resolve f_model data) ;;
  safe_model <- lift (safe_model_of device_model) ;;
  let filename := "cert_" ++ str user_id ++ "_" ++ str safe_model ++ "_" ++
                  certificate_id ++ ".pdf" in
  upload_response <- upload_file supabase "certificates" filename pdf_bytes ;;
  if not_in_200_201 (status_code upload_response)
  then raise (HTTPException 500 ("Upload failed: " ++ text upload_response))
  else
  let pdf_url := get_public_url supabase "certificates" filename in
  fields <- lift (certificate_fields data certificate_id user_id user_email
                    device_model) ;;
  created_at <- now_isoformat ;;
  let certificate_data :=
    JDict (fields ++ [("pdf_url", JStr pdf_url); ("created_at", JStr created_at)]) in
  db_response <- insert_record supabase "certificates" certificate_data ;;
  if not_in_200_201 (status_code db_response)
  then raise (HTTPException 500 ("Database save failed: " ++ text db_response))
  else
  created_at <- now_isoformat ;;
  user_id <- lift (str_field user_id) ;;
  device_model <- lift (str_field device_model) ;;
  ret (mkCertificateResponse certificate_id pdf_url created_at user_id
         device_model "Certificate generated successfully").

(** [POST /generate-certificate] *)
Definition generate_certificate (request : Request)
    (authorization : option string) : M CertificateResponse :=
  try_except (generate_certificate_try request authorization) 500.

(** The [try] block of [GET /my-certificates]. *)
Definition get_my_certificates_try (authorization : option string)
    (limit offset : Z) : M json :=
  token <- bearer_token authorization "Missing authorization header" ;;
  user_info <- verify_user supabase token ;;
  if negb (truthy user_info)
  then raise (HTTPException 401 "Invalid token")
  else
  user_id <- lift (getitem user_info "id") ;;
  response <- select_records supabase "certificates" [("user_id", user_id)]
                (Some limit) (Some offset) ;;
  if negb (status_code response =? 200)
  then raise (HTTPException 500 "Database error")
  else
  data <- lift (json_body response) ;;
  count <- lift (len data) ;;
  ret (JDict [("user_id", user_id);
              ("certificates", data);
              ("count", JInt count)]).

(** [GET /my-certificates] *)
Definition get_my_certificates (authorization : option string)
    (limit offset : Z) : M json :=
  try_except (get_my_certificates_try authorization limit offset) 500.

(** The [try] block of [GET /certificates-by-device/{model}]. *)
Definition get_certificates_by_device_try (model : string)
    (authorization : option string) : M json :=
  token <- bearer_token authorization "Missing authorization header" ;;
  user_info <- verify_user supabase token ;;
  if negb (truthy user_info)
  then raise (HTTPException 401 "Invalid token")
  else
  user_id <- lift (getitem user_info "id") ;;
  response <- select_records supabase "certificates"
                [("user_id", user_id); ("model", JStr model)] None None ;;
  if negb (status_code response =? 200)
  then raise (HTTPException 500 "Database error")
  else
  data <- lift (json_body response) ;;
  if negb (truthy data)
  then raise (HTTPException 404 "No certificates found")
  else
  manufacturer <- lift (let? first := getitem0 data in
                        get first "manufacturer" (JStr "Unknown")) ;;
  total_certificates <- lift (len data) ;;
  ret (JDict [("device_model", JStr model);
              ("manufacturer", manufacturer);
              ("total_certificates", JInt total_certificates);
              ("certificates", data)]).

(** [GET /certificates-by-device/{model}] *)
Definition get_certificates_by_device (model : string)
    (authorization : option string) : M json :=
  try_except (get_certificates_by_device_try model authorization) 500.

(** [GET /] *)
Definition root : M json :=
  ret (JDict [("message", JStr "Media Sanitization Certificate API");
              ("version", JStr "2.0.0");
              ("status", JStr "running")]).

(** [GET /health] *)
Definition health_check : M json :=
  timestamp <- now_isoformat ;;
  ret (JDict [("status", JStr "healthy"); ("timestamp", JStr timestamp)]).

(** The [try] block of [GET /user-info]. *)
Definition get_user_info_try (authorization : option string) : M json :=
  token <- bearer_token authorization "Missing authorization header" ;;
  user_info <- verify_user supabase token ;;
  if negb (truthy user_info)
  then raise (HTTPException 401 "Invalid token")
  else
  user_id <- lift (getitem user_info "id") ;;
  email <- lift (get user_info "email" JNull) ;;
  ret (JDict [("user_id", user_id);
              ("email", email);
              ("authenticated", JBool true)]).

(** [GET /user-info]: here the last [except] clause answers 401. *)
Definition get_user_info (authorization : option string) : M json :=
  try_except (get_user_info_try authorization) 401.

(** *** The routes *)

Inductive endpoint : Type :=
| POST_generate_certificate (request : Request)
| GET_my_certificates (limit offset : Z)
| GET_certificates_by_device (model : string)
| GET_user_info
| GET_root
| GET_health.

(** The endpoints that ask for a bearer token. *)
Definition protected (ep : endpoint) : bool :=
  match ep with
  | GET_root | GET_health => false
  | _ => true
  end.

(** The response model written out as the JSON object the framework
    sends. *)
Definition response_json (r : CertificateResponse) : json :=
  JDict [("certificate_id", JStr (certificate_id r));
         ("pdf_url", JStr (pdf_url r));
         ("created_at", JStr (created_at r));
         ("user_id", JStr (user_id r));
         ("device_model", JStr (device_model r));
         ("message", JStr (message r))].

Definition serve (ep : endpoint) (authorization : option string) : M json :=
  match ep with
  | POST_generate_certificate request =>
      r <- generate_certificate request authorization ;; ret (response_json r)
  | GET_my_certificates limit offset =>
      get_my_certificates authorization limit offset
  | GET_certificates_by_device model =>
      get_certificates_by_device model authorization
  | GET_user_info => get_user_info authorization
  | GET_root => root
  | GET_health => health_check
  end.

(** The [try] block behind each route. *)
Definition try_block (ep : endpoint) (authorization : option string) : M json :=
  match ep with
  | POST_generate_certificate request =>
      r <- generate_certificate_try request authorization ;; ret (response_json r)
  | GET_my_certificates limit offset =>
      get_my_certificates_try authorization limit offset
  | GET_certificates_by_device model =>
      get_certificates_by_device_try model authorization
  | GET_user_info => get_user_info_try authorization
  | GET_root => root
  | GET_health => health_check
  end.

(** The client methods each route goes through, in program order. *)
Definition plan (ep : endpoint) : list call_kind :=
  match ep with
  | POST_generate_certificate _ => [verify_kind; upload_kind; insert_kind]
  | GET_my_certificates _ _ | GET_certificates_by_device _ =>
      [verify_kind; select_kind]
  | GET_user_info => [verify_kind]
  | GET_root | GET_health => []
  end.

(** ** Field resolution *)

Lemma por_truthy (v : json) (b : outcome json) :
  truthy v = true -> Ret v OR b = Ret v.
Proof. intros H; unfold por; now rewrite H. Qed.

Lemma por_falsy (v : json) (b : outcome json) :
  truthy v = false -> Ret v OR b = b.
Proof. intros H; unfold por; now rewrite H. Qed.

Lemma get_dict (d : list (string * json)) (k : string) (default : json) :
  get (JDict d) k default =
  Ret (match dict_get d k with Some v => v | None => default end).
Proof. reflexivity. Qed.

(** The first operand of every chain is the flat top-level key. *)
Lemma resolve_unfold (f : field) (data : json) :
  resolve f data =
  match f with
  | f_model | f_manufacturer | f_serial_number =>
      get data (top_key f) JNull OR
      nested_get data (section_of f) (nested_key f) OR
      Ret (placeholder f)
  | _ =>
      get data (top_key f) JNull OR
      nested_get data (section_of f) (nested_key f)
  end.
Proof. destruct f; reflexivity. Qed.

Lemma resolve_top_truthy (f : field) (d : list (string * json)) (v : json) :
  dict_get d (top_key f) = Some v -> truthy v = true ->
  resolve f (JDict d) = Ret v.
Proof.
  intros Hv Ht. rewrite resolve_unfold, get_dict, Hv.
  destruct f; rewrite ?por_truthy; auto using por_truthy.
Qed.

(** A missing or falsy top-level key leaves the rest of the chain. *)
Lemma resolve_top_skipped (f : field) (d : list (string * json)) :
  absent_or_falsy d (top_key f) = true ->
  resolve f (JDict d) =
  match f with
  | f_model | f_manufacturer | f_serial_number =>
      nested_get (JDict d) (section_of f) (nested_key f) OR Ret (placeholder f)
  | _ => nested_get (JDict d) (section_of f) (nested_key f)
  end.
Proof.
  unfold absent_or_falsy. intros Hk.
  rewrite resolve_unfold, get_dict.
  destruct (dict_get d (top_key f)) as [v|].
  - apply negb_true_iff in Hk. destruct f; now rewrite por_falsy.
  - destruct f; reflexivity.
Qed.

(** C1 (as amended): the fallback order of field resolution.  A top-level
    value that is present and truthy is the resolved value; when the
    top-level key is missing or falsy and the nested section holds a truthy
    value under its key, that nested value is the resolved value; when the
    top-level key is missing or falsy and the nested key is missing, the
    result is the field's placeholder: 'Unknown_Device' for the model,
    'Unknown' for manufacturer and serial number, and null for the five
    fields whose chain has no third operand. *)
Theorem resolve_fallback_order (f : field) (d : list (string * json)) :
  (forall v, dict_get d (top_key f) = Some v -> truthy v = true ->
     resolve f (JDict d) = Ret v) /\
  (forall sec v,
     absent_or_falsy d (top_key f) = true ->
     dict_get d (section_of f) = Some (JDict sec) ->
     dict_get sec (nested_key f) = Some v -> truthy v = true ->
     resolve f (JDict d) = Ret v) /\
  (absent_or_falsy d (top_key f) = true ->
   dict_get d (section_of f) = None \/
   (exists sec, dict_get d (section_of f) = Some (JDict sec) /\
                dict_get sec (nested_key f) = None) ->
   resolve f (JDict d) = Ret (placeholder f)).
Proof.
  split; [|split].
  - apply resolve_top_truthy.
  - intros sec v Hk Hsec Hv Ht. rewrite (resolve_top_skipped _ _ Hk).
    unfold nested_get. rewrite get_dict, Hsec. cbn [obind].
    rewrite get_dict, Hv. destruct f; now rewrite ?por_truthy.
  - intros Hk Hn. rewrite (resolve_top_skipped _ _ Hk).
    unfold nested_get. rewrite get_dict.
    destruct Hn as [Hn | (sec & Hsec & Hn)].
    + rewrite Hn. cbn [obind]. rewrite get_dict. cbn [dict_get].
      destruct f; reflexivity.
    + rewrite Hsec. cbn [obind]. rewrite get_dict, Hn.
      destruct f; reflexivity.
Qed.

(** ** Falsy values *)

Lemma dict_get_del_same (d : list (string * json)) (k : string) :
  dict_get (dict_del d k) k = None.
Proof.
  induction d as [|[k' v] d IH]; cbn; auto.
  destruct (k' =? k)%string eqn:E; cbn; rewrite ?E; auto.
Qed.

Lemma dict_get_del_other (d : list (string * json)) (k k' : string) :
  (k =? k')%string = false ->
  dict_get (dict_del d k) k' = dict_get d k'.
Proof.
  intros Hne. induction d as [|[k0 v] d IH]; cbn; auto.
  destruct (k0 =? k)%string eqn:E.
  - apply String.eqb_eq in E; subst k0. now rewrite Hne.
  - cbn. now rewrite IH.
Qed.





Lemma get_value_absent (d : list (string * json)) (k : string) (default : json) :
  dict_get d k = None -> is_str default = true ->
  get_value (JDict d) k default = default.
Proof.
  intros Hn Hs. unfold get_value. rewrite Hn.
  destruct default; try discriminate. cbn.
  destruct (s =? "")%string; reflexivity.
Qed.








Ltac find_row := cbn [rows flat_map app In]; repeat (first [left; reflexivity | right]).




(** ** Certificate ids *)












(** ** Runs of the handlers *)

Lemma new_calls_app (s : state) (l : list (call * outcome Response)) (d t : nat) :
  new_calls s (mkState (log s ++ l) d t) = l.
Proof.
  unfold new_calls; cbn [log].
  rewrite skipn_app, skipn_all, Nat.sub_diag. reflexivity.
Qed.

Lemma new_calls_same_log (s : state) (d t : nat) :
  new_calls s (mkState (log s) d t) = [].
Proof. unfold new_calls. apply skipn_all. Qed.

Lemma new_calls_refl (s : state) : new_calls s s = [].
Proof. unfold new_calls. apply skipn_all. Qed.

(** Symbolic execution of a handler: unfold the monad, then split on every
    test and every call that can raise, in program order. *)
Ltac unfold_handlers :=
  cbv beta iota zeta delta
    [serve try_block
     generate_certificate generate_certificate_try
     get_my_certificates get_my_certificates_try
     get_certificates_by_device get_certificates_by_device_try
     get_user_info get_user_info_try root health_check
     try_except bind lift ret raise bearer_token verify_user upload_file
     insert_record select_records http_get http_post logged now_isoformat
     uuid4] in *;
  cbn [log draws ticks] in *.

Ltac step H :=
  first
    [ progress cbn [negb truthy] in H
    | match type of H with
      | context [match ?x with _ => _ end] =>
          lazymatch x with
          | context [match _ with _ => _ end] => fail
          | _ => destruct x eqn:?
          end
      end ].

(** At the end of a path: name the result and the final state, and read
    the calls off the log. *)
Ltac conclude H :=
  apply pair_equal_spec in H; destruct H as [<- <-];
  cbn [log draws ticks] in *;
  rewrite <- ?app_assoc in *;
  rewrite ?new_calls_app, ?new_calls_same_log, ?new_calls_refl in *;
  cbn [app] in *.

Ltac run H := unfold_handlers; repeat step H; conclude H.

(** Which entry of the log a given call is. *)
Ltac find_call Hin :=
  cbn [In] in Hin;
  repeat match type of Hin with
         | _ \/ _ => destruct Hin as [Hin | Hin]
         end;
  try contradiction;
  apply pair_equal_spec in Hin; destruct Hin as [Hc Hr];
  try discriminate Hc; try discriminate Hr.

(** C2: a protected endpoint answers 401 when the Authorization header is
    missing, when it does not start with the bearer prefix, and when the
    identity provider answers the token check with a status other than
    200. *)
Theorem protected_endpoints_answer_401 (ep : endpoint)
    (authorization : option string) (W : World) (s s' : state) (r : result json) :
  protected ep = true ->
  serve ep authorization W s = (r, s') ->
  authorization = None \/
  (exists a, authorization = Some a /\ startswith a "Bearer " = false) \/
  (exists token resp,
     In (verify_user_call token, Ret resp) (new_calls s s') /\
     status_code resp <> 200) ->
  http_status r = 401.
Proof.
  intros Hp H [-> | [(a & -> & Ha) | (token & resp & Hin & Hst)]].
  - destruct ep; try discriminate Hp; run H; reflexivity.
  - destruct ep; try discriminate Hp; unfold_handlers;
      rewrite Ha, orb_true_r in H; conclude H; reflexivity.
  - destruct ep; try discriminate Hp; run H; try reflexivity;
      find_call Hin;
      injection Hr as <-;
      match goal with
      | E : (status_code _ =? 200) = true |- _ => apply Z.eqb_eq in E; contradiction
      end.
Qed.

Lemma accepted_is_2xx (code : Z) :
  not_in_200_201 code = false -> non_2xx code -> False.
Proof.
  unfold not_in_200_201, non_2xx. intros H Hn.
  apply negb_false_iff, orb_true_iff in H.
  destruct H as [H | H]; apply Z.eqb_eq in H; lia.
Qed.

Lemma ok_is_2xx (code : Z) : (code =? 200) = true -> non_2xx code -> False.
Proof. unfold non_2xx. intros H Hn. apply Z.eqb_eq in H. lia. Qed.

Lemma prefix_refl (s : string) : String.prefix s s = true.
Proof.
  induction s as [|c s IH]; cbn; [reflexivity|].
  destruct (ascii_dec c c); [exact IH | contradiction].
Qed.

Lemma contains_suffix (a s : string) : contains (a ++ s) s = true.
Proof.
  induction a as [|c a IH]; cbn [append contains].
  - destruct s; cbn [contains]; [reflexivity|]. now rewrite prefix_refl.
  - rewrite IH. apply orb_true_r.
Qed.

(** How a path that made a given call must have ended up. *)
Ltac no_insert :=
  let c := fresh "c" in
  let o := fresh "o" in
  let Hc := fresh "Hc" in
  intros c o Hc; cbn [In] in Hc;
  repeat match type of Hc with
         | _ \/ _ => destruct Hc as [Hc | Hc]
         end;
  try contradiction;
  apply pair_equal_spec in Hc; destruct Hc as [<- _]; reflexivity.

Ltac bad_status :=
  exfalso;
  match goal with
  | E : not_in_200_201 _ = false |- _ => exact (accepted_is_2xx _ E ltac:(assumption))
  | E : (_ =? 200) = true |- _ => exact (ok_is_2xx _ E ltac:(assumption))
  | E : negb (_ =? 200) = false |- _ =>
      apply negb_false_iff in E; exact (ok_is_2xx _ E ltac:(assumption))
  end.

(** C3: when the storage answers the upload with a status outside 2xx the
    endpoint answers 500 and the run makes no insert call. *)
Theorem upload_failure_answers_500_without_insert (request : Request)
    (authorization : option string) (W : World) (s s' : state)
    (r : result CertificateResponse) :
  generate_certificate request authorization W s = (r, s') ->
  forall bucket filename file_data resp,
    In (upload_file_call bucket filename file_data, Ret resp) (new_calls s s') ->
    non_2xx (status_code resp) ->
    http_status r = 500 /\
    forall c o, In (c, o) (new_calls s s') -> is_insert_call c = false.
Proof.
  intros H bucket filename file_data resp Hin Hbad.
  run H; find_call Hin; injection Hr as <-;
    first [ bad_status | split; [reflexivity | no_insert] ].
Qed.

(** C4 (as amended): an endpoint never lets an exception through; the
    error statuses it answers with are 401, 500 and, for the
    certificates-by-device route answering that no certificate was found,
    404. *)
Theorem error_statuses_are_401_404_500 (ep : endpoint)
    (authorization : option string) (W : World) (s : state) :
  match fst (serve ep authorization W s) with
  | Done _ => True
  | Throw (Error _) => False
  | Throw (HTTPException c d) =>
      c = 401 \/ c = 500 \/
      (c = 404 /\ d = "No certificates found" /\
       exists model, ep = GET_certificates_by_device model)
  end.
Proof.
  destruct (serve ep authorization W s) as [r s'] eqn:H. cbn [fst].
  destruct ep; run H; cbv beta iota;
    first [ exact I | left; reflexivity | right; left; reflexivity
          | right; right; eauto ].
Qed.

(** C5 (as amended): a storage or table call answered with a status
    outside 2xx makes the endpoint answer 500.  For the upload and the
    insert of generate-certificate the detail contains the text of the
    upstream response; for the select of my-certificates and
    certificates-by-device the detail is the fixed text 'Database
    error'. *)
Theorem downstream_failures_answer_500 (ep : endpoint)
    (authorization : option string) (W : World) (s s' : state) (r : result json) :
  serve ep authorization W s = (r, s') ->
  forall c resp,
    In (c, Ret resp) (new_calls s s') ->
    non_2xx (status_code resp) ->
    match c with
    | verify_user_call _ => True
    | upload_file_call _ _ _ | insert_record_call _ _ =>
        exists d, r = Throw (HTTPException 500 d) /\ contains d (text resp) = true
    | select_records_call _ _ => r = Throw (HTTPException 500 "Database error")
    end.
Proof.
  intros H c resp Hin Hbad.
  destruct ep; run H; find_call Hin; subst c; try exact I;
    injection Hr as <-;
    first [ bad_status
          | reflexivity
          | eexists; split; [reflexivity | apply contains_suffix] ].
Qed.

Lemma bind_ret_throws {A B} (m : M A) (f : A -> B) (W : World) (s s' : state) (x : exn) :
  bind m (fun a => ret (f a)) W s = (Throw x, s') -> m W s = (Throw x, s').
Proof.
  unfold bind, ret. destruct (m W s) as [[a|y] s1]; intros H.
  - discriminate H.
  - injection H as -> ->. reflexivity.
Qed.

(** C6 (as amended): when the [try] block of a protected endpoint raises
    anything other than an [HTTPException], the endpoint answers with that
    exception's message as detail; the status is 500 for
    generate-certificate, my-certificates and certificates-by-device, and
    401 for user-info. *)
Theorem other_exceptions_answer_with_message (ep : endpoint)
    (authorization : option string) (W : World) (s s' : state) (e : error) :
  try_block ep authorization W s = (Throw (Error e), s') ->
  serve ep authorization W s =
  (Throw (HTTPException (match ep with GET_user_info => 401 | _ => 500 end)
            (str_error e)), s').
Proof.
  intros H. destruct ep; cbn [try_block serve] in *.
  - apply bind_ret_throws in H.
    unfold generate_certificate, bind, try_except. now rewrite H.
  - unfold get_my_certificates, try_except. now rewrite H.
  - unfold get_certificates_by_device, try_except. now rewrite H.
  - unfold get_user_info, try_except. now rewrite H.
  - discriminate H.
  - discriminate H.
Qed.

(** ** The record and the response of generate-certificate *)

Lemma dict_get_app (d d' : list (string * json)) (k : string) (v : json) :
  dict_get d k = Some v -> dict_get (d ++ d') k = Some v.
Proof.
  induction d as [|[k0 v0] d IH]; cbn; [discriminate|].
  destruct (k0 =? k)%string; auto.
Qed.

(** The record carries the resolved model and manufacturer. *)
Lemma certificate_fields_spec (data : json) (cid : string)
    (uid email device_model : json) (fields : list (string * json)) :
  certificate_fields data cid uid email device_model = Ret fields ->
  dict_get fields "model" = Some device_model /\
  exists m, resolve f_manufacturer data = Ret m /\
            dict_get fields "manufacturer" = Some m.
Proof.
  unfold certificate_fields. intros H.
  repeat match type of H with
         | obind ?x _ = _ => destruct x eqn:?; cbn [obind] in H; [|discriminate H]
         end.
  injection H as <-. split; [reflexivity|]. eexists; split; reflexivity.
Qed.

Lemma certificate_fields_ssd500_acme (cid : string) (uid email device_model : json) :
  exists fields,
    certificate_fields ssd500_acme cid uid email device_model = Ret fields.
Proof. eexists. reflexivity. Qed.

(** C7: for the input with the model inside media_information and the
    manufacturer at the top level, every run in which the storage accepted
    the upload (which takes a valid token) hands the table store a record
    whose model is "SSD-500" and whose manufacturer is "Acme". *)
Theorem ssd500_acme_record (authorization : option string) (W : World)
    (s s' : state) (r : result CertificateResponse) :
  generate_certificate (mkRequest (Ret ssd500_acme)) authorization W s = (r, s') ->
  (exists bucket filename file_data resp,
     In (upload_file_call bucket filename file_data, Ret resp) (new_calls s s') /\
     not_in_200_201 (status_code resp) = false) ->
  exists record o,
    In (insert_record_call "certificates" (JDict record), o) (new_calls s s') /\
    dict_get record "model" = Some (JStr "SSD-500") /\
    dict_get record "manufacturer" = Some (JStr "Acme").
Proof.
  intros H (bucket & filename & file_data & resp & Hin & Hok).
  unfold_handlers. cbn [request_json] in H. repeat step H; conclude H;
    find_call Hin; injection Hr as <-; try congruence;
    match goal with
    | E : certificate_fields _ ?c ?u ?e ?m = Raise _ |- _ =>
        destruct (certificate_fields_ssd500_acme c u e m); congruence
    | E : certificate_fields _ _ _ _ ?m = Ret _,
      Em : resolve f_model _ = Ret ?m |- _ =>
        apply certificate_fields_spec in E;
        destruct E as (Hmodel & mf & Hmf & Hmanufacturer);
        cbv in Hmf, Em; injection Hmf as <-; injection Em as <-
    end;
    do 2 eexists; (split; [cbn [In]; eauto | split; apply dict_get_app; assumption]).
Qed.

Lemma str_field_done (v : json) (u : string) : str_field v = Ret u -> u = str v.
Proof.
  unfold str_field. destruct v; try destruct (str_field_error _);
    intros H; try discriminate H; injection H as <-; reflexivity.
Qed.

Lemma safe_model_of_done (v w : json) :
  safe_model_of v = Ret w -> exists m, v = JStr m /\ w = JStr (safe m).
Proof.
  destruct v; try discriminate. cbn. intros H. injection H as <-. eauto.
Qed.

(** What a successful run returns: the id drawn at the start, and the
    public URL of the file named after the user, the model and that id. *)
Lemma generate_certificate_done (request : Request)
    (authorization : option string) (W : World) (s s' : state)
    (resp : CertificateResponse) :
  generate_certificate request authorization W s = (Done resp, s') ->
  certificate_id resp = uuid_str (uuid4_int (os_urandom16 W (draws s))) /\
  pdf_url resp =
    get_public_url supabase "certificates"
      ("cert_" ++ user_id resp ++ "_" ++ safe (device_model resp) ++ "_" ++
       certificate_id resp ++ ".pdf") /\
  draws s' = S (draws s).
Proof.
  remember (Done resp) as r eqn:Er. intros H.
  run H; try discriminate Er. injection Er as <-.
  cbn [certificate_id pdf_url user_id device_model].
  repeat match goal with
         | E : str_field _ = Ret _ |- _ => apply str_field_done in E
         | E : safe_model_of _ = Ret _ |- _ =>
             apply safe_model_of_done in E; destruct E as (m & -> & ->)
         end.
  subst. auto.
Qed.

(** C8: two successful runs that agree on the user id, on the sanitized
    device model and on the certificate id return the same storage URL
    (the bucket is always "certificates" and the base URL is the
    configured one). *)
Theorem storage_url_deterministic
    (request1 request2 : Request) (authorization1 authorization2 : option string)
    (W1 W2 : World) (s1 s1' s2 s2' : state) (r1 r2 : CertificateResponse) :
  generate_certificate request1 authorization1 W1 s1 = (Done r1, s1') ->
  generate_certificate request2 authorization2 W2 s2 = (Done r2, s2') ->
  user_id r1 = user_id r2 ->
  safe (device_model r1) = safe (device_model r2) ->
  certificate_id r1 = certificate_id r2 ->
  pdf_url r1 = pdf_url r2.
Proof.
  intros H1 H2 Hu Hm Hc.
  apply generate_certificate_done in H1, H2.
  destruct H1 as (_ & -> & _), H2 as (_ & -> & _).
  now rewrite Hu, Hm, Hc.
Qed.


(** ** String helpers of the handlers *)

Lemma replace_char (c c' : ascii) (s : string) :
  replace s (String c EmptyString) (String c' EmptyString) = subst_char c c' s.
Proof.
  unfold replace. induction s as [|x s IH]; [reflexivity|].
  cbn [replace_from subst_char String.prefix String.length Nat.pred].
  rewrite Ascii.eqb_sym.
  destruct (ascii_dec c x) as [->|Hne].
  - rewrite Ascii.eqb_refl. destruct s; cbn [append]; now rewrite IH.
  - apply Ascii.eqb_neq in Hne. rewrite Ascii.eqb_sym in Hne.
    rewrite Ascii.eqb_sym, Hne. now rewrite IH.
Qed.

Lemma contains_char (c : ascii) (s : string) :
  contains s (String c EmptyString) =
  match s with
  | EmptyString => false
  | String x s' => (x =? c)%char || contains s' (String c EmptyString)
  end.
Proof.
  destruct s as [|x s]; [reflexivity|].
  cbn [contains String.prefix].
  destruct (ascii_dec c x) as [->|Hne].
  - rewrite Ascii.eqb_refl. now destruct s.
  - apply Ascii.eqb_neq in Hne. rewrite Ascii.eqb_sym in Hne. now rewrite Hne.
Qed.

Lemma subst_char_removes (c c' : ascii) (s : string) :
  c' <> c -> contains (subst_char c c' s) (String c EmptyString) = false.
Proof.
  intros Hne. induction s as [|x s IH]; [reflexivity|].
  cbn [subst_char]. rewrite contains_char, IH, orb_false_r.
  destruct (x =? c)%char eqn:E; [now apply Ascii.eqb_neq | exact E].
Qed.

Lemma subst_char_keeps_out (c c' d : ascii) (s : string) :
  c' <> d -> contains s (String d EmptyString) = false ->
  contains (subst_char c c' s) (String d EmptyString) = false.
Proof.
  intros Hne. induction s as [|x s IH]; [reflexivity|].
  rewrite contains_char. intros H. apply orb_false_iff in H. destruct H as [Hx Hs].
  cbn [subst_char]. rewrite contains_char, (IH Hs), orb_false_r.
  destruct (x =? c)%char; [now apply Ascii.eqb_neq | exact Hx].
Qed.

Lemma subst_char_length (c c' : ascii) (s : string) :
  String.length (subst_char c c' s) = String.length s.
Proof. induction s; cbn; congruence. Qed.

(** X1: the sanitized model has the length of the model and holds neither
    a space nor a slash. *)
Theorem safe_model_has_no_space_or_slash (m : string) :
  String.length (safe m) = String.length m /\
  contains (safe m) " " = false /\
  contains (safe m) "/" = false.
Proof.
  unfold safe. rewrite !replace_char. split; [|split].
  - now rewrite !subst_char_length.
  - apply subst_char_keeps_out; [discriminate|].
    apply subst_char_removes. discriminate.
  - apply subst_char_removes. discriminate.
Qed.

Lemma rstrip_slash_app_slash (u : string) :
  rstrip_slash (u ++ "/") = rstrip_slash u.
Proof.
  induction u as [|c u IH]; [reflexivity|].
  cbn [append rstrip_slash]. now rewrite IH.
Qed.

Lemma rstrip_slash_split (u : string) :
  exists n, u = rstrip_slash u ++ slashes n.
Proof.
  induction u as [|c u [n IH]]; [exists O; reflexivity|].
  cbn [rstrip_slash]. destruct (rstrip_slash u) as [|c0 r] eqn:E.
  - destruct (c =? "/")%char eqn:Ec.
    + apply Ascii.eqb_eq in Ec; subst c. exists (S n). cbn. now rewrite IH at 1.
    + exists n. cbn. now rewrite IH at 1.
  - exists n. cbn [append]. now rewrite IH at 1.
Qed.

Lemma rstrip_slash_no_trailing (u x : string) : rstrip_slash u <> x ++ "/".
Proof.
  revert x. induction u as [|c u IH]; intros x.
  - destruct x; discriminate.
  - cbn [rstrip_slash]. destruct (rstrip_slash u) as [|c0 r] eqn:E.
    + destruct (c =? "/")%char eqn:Ec.
      * destruct x; discriminate.
      * destruct x as [|c1 x]; cbn [append]; intros H.
        -- injection H as ->. discriminate Ec.
        -- injection H as _ H. destruct x; discriminate H.
    + destruct x as [|c1 x]; [discriminate|].
      cbn [append]. intros H. injection H as _ H. exact (IH x H).
Qed.

(** X2: the client drops the trailing slashes of the configured URL, and
    nothing else: the URL it keeps does not end with a slash, the
    configured one is that URL followed by slashes only, and one more
    trailing slash in the configuration gives the same client. *)
Theorem client_url_has_no_trailing_slash (u k : string) :
  (forall x, url (SupabaseClient_init u k) <> x ++ "/") /\
  (exists n, u = url (SupabaseClient_init u k) ++ slashes n) /\
  SupabaseClient_init (u ++ "/") k = SupabaseClient_init u k.
Proof.
  unfold SupabaseClient_init. cbn [url]. split; [|split].
  - apply rstrip_slash_no_trailing.
  - apply rstrip_slash_split.
  - now rewrite rstrip_slash_app_slash.
Qed.

Lemma prefix_append (a b : string) : String.prefix a (a ++ b) = true.
Proof.
  induction a as [|c a IH]; cbn; [now destruct b|].
  destruct (ascii_dec c c); [exact IH | contradiction].
Qed.

Lemma replace_from_skip (a t old new : string) :
  replace_from (String.length a) (a ++ t) old new = replace_from O t old new.
Proof.
  induction a as [|c a IH]; [reflexivity|].
  cbn [String.length append replace_from]. exact IH.
Qed.

Lemma replace_prefix (c : ascii) (old t new : string) :
  replace (String c old ++ t) (String c old) new = new ++ replace t (String c old) new.
Proof.
  unfold replace. cbn [append replace_from].
  change (String c (old ++ t)) with (String c old ++ t).
  rewrite prefix_append. cbn [String.length Nat.pred].
  now rewrite replace_from_skip.
Qed.

Lemma replace_absent (t old new : string) :
  contains t old = false -> replace t old new = t.
Proof.
  unfold replace. induction t as [|c t IH]; [reflexivity|].
  cbn [contains replace_from]. intros H. apply orb_false_iff in H.
  destruct H as [Hp Hc]. rewrite Hp, (IH Hc). reflexivity.
Qed.

(** The token cut out of a bearer header that holds the prefix once. *)
Lemma bearer_token_of (t : string) :
  contains t "Bearer " = false -> replace ("Bearer " ++ t) "Bearer " "" = t.
Proof.
  intros H. rewrite (replace_prefix "B" "earer " t ""). cbn [append].
  now apply replace_absent.
Qed.

(** ** Field resolution: when it raises *)

(** X3: field resolution raises exactly when the top-level key is missing
    or falsy and the nested section is present but is not an object; the
    error is the AttributeError of calling [.get] on that value. *)
Theorem resolve_raises_iff (f : field) (d : list (string * json)) (e : error) :
  resolve f (JDict d) = Raise e <->
  absent_or_falsy d (top_key f) = true /\
  exists v, dict_get d (section_of f) = Some v /\ is_dict v = false /\
            e = AttributeError (type_name v) "get".
Proof.
  split.
  - intros H.
    destruct (absent_or_falsy d (top_key f)) eqn:Hk.
    + split; [reflexivity|]. rewrite (resolve_top_skipped _ _ Hk) in H.
      unfold nested_get in H. rewrite get_dict in H.
      destruct (dict_get d (section_of f)) as [v|] eqn:Hs.
      * exists v. split; [reflexivity|].
        destruct v, f; cbn in H;
          repeat match type of H with
                 | context [match ?x with _ => _ end] => destruct x
                 end;
          try discriminate H; injection H as <-; auto.
      * exfalso. destruct f; cbn in H; discriminate H.
    + exfalso. unfold absent_or_falsy in Hk.
      destruct (dict_get d (top_key f)) as [v|] eqn:Hv; [|discriminate Hk].
      apply negb_false_iff in Hk.
      rewrite (resolve_top_truthy f d v Hv Hk) in H. discriminate H.
  - intros (Hk & v & Hs & Hd & ->).
    rewrite (resolve_top_skipped _ _ Hk). unfold nested_get.
    rewrite get_dict, Hs. destruct v; try discriminate Hd; destruct f; reflexivity.
Qed.
(** ** Sections that are not objects *)

Lemma get_value_not_dict (v : json) (k : string) (default : json) :
  is_dict v = false -> get_value v k default = default.
Proof. destruct v; try discriminate; reflexivity. Qed.

(** X4: a section the page reads only through [get_value] and that is
    present but is not an object (null, a list, a string, a number) gives
    the same page as when the section is missing. *)
Theorem lenient_section_not_object_as_absent (d : list (string * json))
    (section : string) (v : json) (certificate_id : string) :
  In section lenient_sections ->
  dict_get d section = Some v -> is_dict v = false ->
  story (JDict d) certificate_id =
  story (JDict (dict_del d section)) certificate_id.
Proof.
  intros Hin Hv Hd. unfold story. rewrite !get_dict.
  cbn [lenient_sections In] in Hin.
  destruct Hin as [<-|[<-|[<-|[<-|[]]]]];
    rewrite dict_get_del_same, !dict_get_del_other by reflexivity;
    rewrite Hv; cbn [obind];
    rewrite !(get_value_not_dict v) by exact Hd;
    rewrite !get_value_absent by reflexivity;
    reflexivity.
Qed.



(** ** Lists on the page *)

Lemma str_items_strings (i : nat) (items : list string) :
  str_items i (map JStr items) = Ret items.
Proof.
  revert i. induction items as [|x items IH]; intros i; [reflexivity|].
  cbn [map str_items]. now rewrite IH.
Qed.

(** X6: on a page that was built, a non-empty passes_performed list shows
    as the number of its entries, a non-empty tools_used list of strings
    shows as its entries joined by ", ", and a tools_used given as one
    non-empty string shows as its characters joined by ", ". *)
Theorem lists_render_as_count_and_joined (d : list (string * json))
    (certificate_id : string) (st : list flowable) :
  story (JDict d) certificate_id = Ret st ->
  (forall sd x l,
     dict_get d "sanitization_details" = Some (JDict sd) ->
     dict_get sd "passes_performed" = Some (JList (x :: l)) ->
     In [label "Passes Performed:";
         Paragraph (JStr (str (JInt (Z.of_nat (List.length (x :: l)))))) value_style;
         label "Verification Status:";
         Paragraph (get_value (JDict sd) "verification_status" NA) success_style]
        (rows st)) /\
  (forall hi x items,
     dict_get d "host_system_information" = Some (JDict hi) ->
     dict_get hi "tools_used" = Some (JList (map JStr (x :: items))) ->
     In [label "Tools Used:"; Paragraph (JStr (join ", " (x :: items))) value_style;
         label ""; Paragraph (JStr "") value_style]
        (rows st)) /\
  (forall hi c s,
     dict_get d "host_system_information" = Some (JDict hi) ->
     dict_get hi "tools_used" = Some (JStr (String c s)) ->
     In [label "Tools Used:";
         Paragraph
           (JStr (join ", " (map (fun a => String a EmptyString)
                               (list_ascii_of_string (String c s)))))
           value_style;
         label ""; Paragraph (JStr "") value_style]
        (rows st)).
Proof.
  unfold story. rewrite !get_dict. cbn [obind]. intros H.
  split; [|split].
  - intros sd x l Hsd Hp. rewrite Hsd in H.
    match type of H with
    | obind ?x _ = _ => destruct x; cbn [obind] in H; [|discriminate H]
    end.
    rewrite get_dict, Hp in H. cbn [obind truthy len] in H.
    repeat match type of H with
           | obind ?x _ = _ => destruct x; cbn [obind] in H; [|discriminate H]
           end.
    injection H as <-. find_row.
  - intros hi x items Hhi Ht. rewrite Hhi in H.
    repeat match type of H with
           | obind (get (JDict hi) _ _) _ = _ => fail 1
           | obind ?x _ = _ => destruct x; cbn [obind] in H; [|discriminate H]
           end.
    rewrite get_dict, Ht in H. cbn [obind map truthy join_value] in H.
    change (JStr x :: map JStr items) with (map JStr (x :: items)) in H.
    rewrite str_items_strings in H. cbn [obind] in H.
    injection H as <-. find_row.
  - intros hi c s Hhi Ht. rewrite Hhi in H.
    repeat match type of H with
           | obind (get (JDict hi) _ _) _ = _ => fail 1
           | obind ?x _ = _ => destruct x; cbn [obind] in H; [|discriminate H]
           end.
    rewrite get_dict, Ht in H.
    cbn [obind truthy join_value negb String.eqb] in H.
    injection H as <-. find_row.
Qed.

(** ** The calls a run makes *)

(** X7: the client calls of a run follow the route's plan: they are a
    prefix of it (one identity check, then one upload and one insert for
    generate-certificate, one select for the two read routes, nothing for
    the root and health routes), a run that succeeds has made all of
    them, and the root and health routes always succeed. *)
Theorem calls_follow_the_plan (ep : endpoint) (authorization : option string)
    (W : World) (s s' : state) (r : result json) :
  serve ep authorization W s = (r, s') ->
  (exists rest, plan ep = (kinds (new_calls s s') ++ rest)%list) /\
  (forall a, r = Done a -> kinds (new_calls s s') = plan ep) /\
  (protected ep = false -> exists a, r = Done a).
Proof.
  intros H.
  destruct ep; run H; cbn [kinds map fst kind_of plan protected];
    (split; [eexists; cbn [app]; reflexivity|]);
    (split; [intros ? Hd; first [discriminate Hd | reflexivity]
            | intros Hp; first [discriminate Hp | eauto]]).
Qed.

(** X8: no storage or table call is made unless the run started with an
    identity check that the provider answered with status 200 and a
    truthy JSON body. *)
Theorem downstream_calls_need_accepted_token (ep : endpoint)
    (authorization : option string) (W : World) (s s' : state) (r : result json) :
  serve ep authorization W s = (r, s') ->
  forall c o,
    In (c, o) (new_calls s s') -> kind_of c <> verify_kind ->
    exists token resp user_info rest,
      new_calls s s' = (verify_user_call token, Ret resp) :: rest /\
      status_code resp = 200 /\
      json_body resp = Ret user_info /\
      truthy user_info = true.
Proof.
  intros H c o Hin Hk.
  destruct ep; run H; find_call Hin; subst c;
    try (exfalso; apply Hk; reflexivity);
    do 4 eexists; (split; [reflexivity|]);
    repeat match goal with
           | E : (status_code _ =? 200) = true |- _ => apply Z.eqb_eq in E
           | E : negb (truthy _) = false |- _ => apply negb_false_iff in E
           end;
    eauto.
Qed.

Lemma bearer_guard_passes (t : string) :
  negb (truthy (JStr ("Bearer " ++ t))) || negb (startswith ("Bearer " ++ t) "Bearer ")
  = false.
Proof. unfold startswith. rewrite prefix_append. reflexivity. Qed.

(** X9: for a header made of the bearer prefix and a token that does not
    itself contain the prefix, a protected endpoint starts by checking
    exactly that token with the identity provider. *)
Theorem bearer_token_is_forwarded (ep : endpoint) (t : string)
    (W : World) (s s' : state) (r : result json) :
  protected ep = true ->
  contains t "Bearer " = false ->
  serve ep (Some ("Bearer " ++ t)) W s = (r, s') ->
  exists o rest, new_calls s s' = (verify_user_call t, o) :: rest.
Proof.
  intros Hp Ht H.
  destruct ep; try discriminate Hp; unfold_handlers;
    rewrite bearer_guard_passes, (bearer_token_of t Ht) in H;
    repeat step H; conclude H; eauto.
Qed.

(** X10: every select a read endpoint makes is on the certificates table
    and filters on the id the identity provider returned for the caller;
    my-certificates adds the limit and the offset only when they are not
    0, certificates-by-device adds the model and never a limit. *)
Theorem select_is_scoped_to_caller (ep : endpoint)
    (authorization : option string) (W : World) (s s' : state) (r : result json)
    (table : string) (params : list (string * json)) (o : outcome Response) :
  serve ep authorization W s = (r, s') ->
  In (select_records_call table params, o) (new_calls s s') ->
  exists token resp user_info uid,
    In (verify_user_call token, Ret resp) (new_calls s s') /\
    json_body resp = Ret user_info /\
    getitem user_info "id" = Ret uid /\
    table = "certificates" /\
    match ep with
    | GET_my_certificates limit offset =>
        params =
        ([("user_id", JStr ("eq." ++ str uid))] ++
         (if limit =? 0 then [] else [("limit", JInt limit)]) ++
         (if offset =? 0 then [] else [("offset", JInt offset)]))%list
    | GET_certificates_by_device model =>
        params = [("user_id", JStr ("eq." ++ str uid));
                  ("model", JStr ("eq." ++ model))]
    | _ => False
    end.
Proof.
  intros H Hin.
  destruct ep; run H; find_call Hin;
    injection Hc as <- <-;
    do 4 eexists;
    (split; [cbn [In]; left; reflexivity|]);
    (split; [eassumption|]); (split; [eassumption|]); (split; [reflexivity|]);
    repeat match goal with
           | E : negb (_ =? 0) = true |- _ => apply (proj1 (negb_true_iff _)) in E
           | E : negb (_ =? 0) = false |- _ => apply (proj1 (negb_false_iff _)) in E
           end;
    repeat match goal with
           | E : (?n =? 0) = _ |- context [?n =? 0] => rewrite E
           end;
    reflexivity.
Qed.

(** ** Failures of the collaborators *)

Lemma insert_call_inj (t t' : string) (x x' : json) :
  insert_record_call t x = insert_record_call t' x' -> t = t' /\ x = x'.
Proof. intros H; injection H; auto. Qed.

Lemma upload_call_inj (b b' f f' : string) (x x' : bytes) :
  upload_file_call b f x = upload_file_call b' f' x' -> b = b' /\ f = f' /\ x = x'.
Proof. intros H; injection H; auto. Qed.

Lemma verify_call_inj (t t' : string) :
  verify_user_call t = verify_user_call t' -> t = t'.
Proof. intros H; injection H; auto. Qed.

Lemma ret_inj {A} (a a' : A) : Ret a = Ret a' -> a = a'.
Proof. intros H; injection H; auto. Qed.

(** X11: a storage or table call that raises, or that is answered with a
    status the code does not take (anything but 200 and 201 for the
    upload and the insert, 204 included; anything but 200 for a select,
    206 included), is the last call of the run, and the endpoint answers
    500. *)
Theorem rejected_answer_ends_the_run (ep : endpoint)
    (authorization : option string) (W : World) (s s' : state) (r : result json)
    (c : call) (o : outcome Response) :
  serve ep authorization W s = (r, s') ->
  In (c, o) (new_calls s s') ->
  match kind_of c, o with
  | verify_kind, _ => False
  | _, Raise _ => True
  | select_kind, Ret resp => status_code resp <> 200
  | _, Ret resp => not_in_200_201 (status_code resp) = true
  end ->
  http_status r = 500 /\
  exists before, new_calls s s' = (before ++ [(c, o)])%list.
Proof.
  intros H Hin Hrej.
  destruct ep; run H; find_call Hin; subst c o; cbn [kind_of] in Hrej;
    try contradiction;
    repeat match goal with
           | E : negb (status_code _ =? 200) = false |- _ =>
               apply (proj1 (negb_false_iff _)) in E
           | E : (status_code _ =? 200) = true |- _ => apply Z.eqb_eq in E
           end;
    try congruence;
    (split; [reflexivity|]);
    first [ exists []; reflexivity
          | eexists [_]; reflexivity
          | eexists [_; _]; reflexivity ].
Qed.

(** What [certificate_fields] returns. *)
Lemma certificate_fields_inv (data : json) (cid : string)
    (uid email device_model : json) (fields : list (string * json)) :
  certificate_fields data cid uid email device_model = Ret fields ->
  (map fst fields ++ ["pdf_url"; "created_at"])%list = record_keys /\
  dict_get fields "certificate_id" = Some (JStr cid) /\
  dict_get fields "user_id" = Some uid /\
  dict_get fields "user_email" = Some email /\
  dict_get fields "model" = Some device_model /\
  dict_get fields "pdf_url" = None /\
  dict_get fields "created_at" = None /\
  forall section, In section section_names ->
    exists v, get data section JNull = Ret v /\ dict_get fields section = Some v.
Proof.
  unfold certificate_fields. intros H.
  repeat match type of H with
         | obind ?x _ = _ => destruct x eqn:?; cbn [obind] in H; [|discriminate H]
         end.
  injection H as <-. repeat (split; [reflexivity|]).
  intros section Hin. cbn [section_names In] in Hin.
  repeat (destruct Hin as [<-|Hin]; [eexists; split; [eassumption|reflexivity]|]).
  contradiction.
Qed.

Lemma dict_get_app_absent (d d' : list (string * json)) (k : string) :
  dict_get d k = None -> dict_get (d ++ d') k = dict_get d' k.
Proof.
  induction d as [|[k0 v0] d IH]; cbn; [reflexivity|].
  destruct (k0 =? k)%string; [discriminate|exact IH].
Qed.

(** X12: when the insert fails (it raises or is answered with a status
    other than 200 and 201) the endpoint answers 500 although the storage
    has accepted the file: the run holds an upload answered 200 or 201,
    and the record that was refused points at that file. *)
Theorem failed_insert_leaves_uploaded_file (request : Request)
    (authorization : option string) (W : World) (s s' : state)
    (r : result CertificateResponse)
    (table : string) (record : json) (o : outcome Response) :
  generate_certificate request authorization W s = (r, s') ->
  In (insert_record_call table record, o) (new_calls s s') ->
  match o with
  | Ret resp => not_in_200_201 (status_code resp) = true
  | Raise _ => True
  end ->
  http_status r = 500 /\
  exists filename file_data up fields,
    In (upload_file_call "certificates" filename file_data, Ret up)
       (new_calls s s') /\
    not_in_200_201 (status_code up) = false /\
    record = JDict fields /\
    dict_get fields "pdf_url" =
    Some (JStr (get_public_url supabase "certificates" filename)).
Proof.
  intros H Hin Hrej.
  run H; find_call Hin; apply insert_call_inj in Hc; destruct Hc as [<- <-]; subst o;
    try congruence;
    (split; [reflexivity|]);
    do 4 eexists;
    (split; [cbn [In]; right; left; reflexivity|]);
    (split; [eassumption|]); (split; [reflexivity|]);
    match goal with
    | E : certificate_fields _ _ _ _ _ = Ret _ |- _ =>
        apply certificate_fields_inv in E;
        destruct E as (_ & _ & _ & _ & _ & Hurl & _)
    end;
    rewrite (dict_get_app_absent _ _ _ Hurl); reflexivity.
Qed.

(** ** What is uploaded and what is stored *)

(** X13: a successful run has made exactly one identity check, one upload
    and one insert, in this order; the response and the stored record
    agree on the certificate id, the model and the URL, which is the
    public URL of the uploaded file; the two creation times are two
    successive readings of the clock, the record's first. *)
Theorem response_matches_stored_record (request : Request)
    (authorization : option string) (W : World) (s s' : state)
    (resp : CertificateResponse) :
  generate_certificate request authorization W s = (Done resp, s') ->
  exists token v filename file_data up fields ins,
    new_calls s s' =
      [(verify_user_call token, v);
       (upload_file_call "certificates" filename file_data, Ret up);
       (insert_record_call "certificates" (JDict fields), Ret ins)] /\
    pdf_url resp = get_public_url supabase "certificates" filename /\
    dict_get fields "pdf_url" = Some (JStr (pdf_url resp)) /\
    dict_get fields "certificate_id" = Some (JStr (certificate_id resp)) /\
    dict_get fields "model" = Some (JStr (device_model resp)) /\
    dict_get fields "created_at" = Some (JStr (datetime_now_isoformat W (ticks s))) /\
    created_at resp = datetime_now_isoformat W (S (ticks s)).
Proof.
  remember (Done resp) as r eqn:Er. intros H.
  run H; try discriminate Er. injection Er as <-.
  cbn [certificate_id pdf_url created_at device_model].
  repeat match goal with
         | E : str_field _ = Ret _ |- _ => apply str_field_done in E
         | E : safe_model_of _ = Ret _ |- _ =>
             apply safe_model_of_done in E; destruct E as (m & -> & ->)
         | E : certificate_fields _ _ _ _ _ = Ret _ |- _ =>
             apply certificate_fields_inv in E;
             destruct E as (_ & Hid & _ & _ & Hmodel & Hurl & Hcreated & _)
         end.
  subst. do 7 eexists. split; [reflexivity|]. split; [reflexivity|].
  split; [rewrite (dict_get_app_absent _ _ _ Hurl); reflexivity|].
  split; [apply dict_get_app; exact Hid|].
  split; [apply dict_get_app; exact Hmodel|].
  split; [|reflexivity].
  rewrite (dict_get_app_absent _ _ _ Hcreated). reflexivity.
Qed.

Lemma keys_done (v : json) (l : list string) :
  keys v = Ret l -> exists d, v = JDict d.
Proof. destruct v; try discriminate. eauto. Qed.

Lemma map_fst_app_keys (fields : list (string * json)) (a b : json) :
  map fst (fields ++ [("pdf_url", a); ("created_at", b)]) =
  (map fst fields ++ ["pdf_url"; "created_at"])%list.
Proof. now rewrite map_app. Qed.

(** X14: every record handed to the table store goes to the certificates
    table, has the 25 keys of the schema in their fixed order, carries
    the id and the email (or "unknown@example.com") of the identity the
    provider returned, and keeps each of the seven input sections as it
    came in, null when the input has none. *)
Theorem record_keeps_sections_verbatim (request : Request)
    (authorization : option string) (W : World) (s s' : state)
    (r : result CertificateResponse)
    (table : string) (record : json) (o : outcome Response) :
  generate_certificate request authorization W s = (r, s') ->
  In (insert_record_call table record, o) (new_calls s s') ->
  table = "certificates" /\
  exists fields d token vresp user_info uid email,
    record = JDict fields /\
    request_json request = Ret (JDict d) /\
    map fst fields = record_keys /\
    In (verify_user_call token, Ret vresp) (new_calls s s') /\
    json_body vresp = Ret user_info /\
    getitem user_info "id" = Ret uid /\
    get user_info "email" (JStr "unknown@example.com") = Ret email /\
    dict_get fields "user_id" = Some uid /\
    dict_get fields "user_email" = Some email /\
    forall section, In section section_names ->
      dict_get fields section =
      Some (match dict_get d section with Some v => v | None => JNull end).
Proof.
  intros H Hin.
  run H; find_call Hin; apply insert_call_inj in Hc; destruct Hc as [<- <-];
    (split; [reflexivity|]);
    match goal with
    | E : keys _ = Ret _ |- _ => apply keys_done in E; destruct E as (d & ->)
    end;
    match goal with
    | E : certificate_fields _ _ _ _ _ = Ret _ |- _ =>
        apply certificate_fields_inv in E;
        destruct E as (Hkeys & _ & Huid & Hemail & _ & _ & _ & Hsections)
    end;
    do 7 eexists;
    (split; [reflexivity|]); (split; [first [reflexivity | eassumption]|]);
    (split; [rewrite map_fst_app_keys; exact Hkeys|]);
    (split; [cbn [In]; left; reflexivity|]);
    (split; [eassumption|]); (split; [eassumption|]); (split; [eassumption|]);
    (split; [apply dict_get_app; exact Huid|]);
    (split; [apply dict_get_app; exact Hemail|]);
    intros section Hs; destruct (Hsections section Hs) as (v & Hv & Hf);
    rewrite get_dict in Hv; injection Hv as <-;
    apply dict_get_app; exact Hf.
Qed.

(** X15: an upload is only made for a body that is a JSON object whose
    page was built and whose model resolved to a string; the file goes to
    the certificates bucket under the name made of the user id, the
    sanitized model and the certificate id, and its content is the PDF of
    that body. *)
Theorem upload_needs_wellformed_input (request : Request)
    (authorization : option string) (W : World) (s s' : state)
    (r : result CertificateResponse)
    (bucket filename : string) (file_data : bytes) (o : outcome Response) :
  generate_certificate request authorization W s = (r, s') ->
  In (upload_file_call bucket filename file_data, o) (new_calls s s') ->
  bucket = "certificates" /\
  exists d m token vresp user_info uid email,
    request_json request = Ret (JDict d) /\
    resolve f_model (JDict d) = Ret (JStr m) /\
    In (verify_user_call token, Ret vresp) (new_calls s s') /\
    json_body vresp = Ret user_info /\
    getitem user_info "id" = Ret uid /\
    get user_info "email" (JStr "unknown@example.com") = Ret email /\
    let cid := uuid_str (uuid4_int (os_urandom16 W (draws s))) in
    generate_certificate_pdf (JDict d) cid email = Ret file_data /\
    filename = "cert_" ++ str uid ++ "_" ++ safe m ++ "_" ++ cid ++ ".pdf".
Proof.
  intros H Hin.
  run H; find_call Hin; apply upload_call_inj in Hc; destruct Hc as (<- & <- & <-);
    (split; [reflexivity|]);
    repeat match goal with
           | E : keys _ = Ret _ |- _ => apply keys_done in E; destruct E as (d & ->)
           | E : safe_model_of _ = Ret _ |- _ =>
               apply safe_model_of_done in E; destruct E as (m & -> & ->)
           end;
    do 7 eexists;
    (split; [first [reflexivity | eassumption]|]); (split; [eassumption|]);
    (split; [cbn [In]; left; reflexivity|]);
    (split; [eassumption|]); (split; [eassumption|]); (split; [eassumption|]);
    cbv zeta; (split; [eassumption|reflexivity]).
Qed.

(** X16: with an identity the provider accepted and that has an id, a
    body that is valid JSON but not an object (a list, a string, a
    number, null) is answered with 500, the detail being Python's message
    for the missing [keys] attribute, and nothing is uploaded: the
    identity check is the only call. *)
Theorem non_object_body_answers_500 (request : Request)
    (authorization : option string) (W : World) (s s' : state)
    (r : result CertificateResponse)
    (data : json) (token : string) (resp : Response) (user_info : list (string * json))
    (uid : json) :
  generate_certificate request authorization W s = (r, s') ->
  request_json request = Ret data -> is_dict data = false ->
  In (verify_user_call token, Ret resp) (new_calls s s') ->
  status_code resp = 200 ->
  json_body resp = Ret (JDict user_info) ->
  dict_get user_info "id" = Some uid ->
  r = Throw (HTTPException 500
               ("'" ++ type_name data ++ "' object has no attribute 'keys'")) /\
  new_calls s s' = [(verify_user_call token, Ret resp)].
Proof.
  intros H Hreq Hd Hin Hst Hbody Hid.
  assert (Htruthy : truthy (JDict user_info) = true)
    by (destruct user_info; [discriminate Hid | reflexivity]).
  run H; find_call Hin; apply verify_call_inj in Hc; subst token;
    apply ret_inj in Hr; subst resp;
    repeat match goal with
           | E : (status_code _ =? 200) = false |- _ =>
               apply Z.eqb_neq in E; contradiction
           | E : Raise _ = Ret _ |- _ => discriminate E
           | E : Ret ?a = Ret ?b |- _ =>
               apply ret_inj in E; first [subst a | subst b]
           | E : ?x = Raise _, E' : ?x = Ret _ |- _ =>
               rewrite E' in E; discriminate E
           | E : ?x = Ret ?a, E' : ?x = Ret ?b |- _ =>
               is_var a; assert (a = b) by congruence; subst a; clear E
           | E : negb (truthy _) = true |- _ =>
               rewrite Htruthy in E; discriminate E
           | E : getitem (JDict _) _ = Raise _ |- _ =>
               cbn [getitem] in E; rewrite Hid in E; discriminate E
           | E : get (JDict _) _ _ = Raise _ |- _ => discriminate E
           | E : keys ?v = Ret _ |- _ =>
               apply keys_done in E; destruct E as (d & ->); discriminate Hd
           | E : keys ?v = Raise _ |- _ =>
               destruct v; try discriminate Hd; cbn [keys] in E;
               injection E as <-
           end;
    split; reflexivity.
Qed.

(** ** What the read endpoints answer *)

Lemma no_bearer_prefix (a : string) :
  negb (negb (a =? "")%string) || negb (startswith a "Bearer ") = true ->
  startswith a "Bearer " = false.
Proof.
  destruct (startswith a "Bearer ") eqn:E; [|reflexivity].
  rewrite negb_involutive, orb_false_r. intros Ha.
  apply String.eqb_eq in Ha. subst a. discriminate E.
Qed.

(** X17: generate-certificate, my-certificates and certificates-by-device
    answer 401 for authentication reasons only: either no call was made
    and the header is missing or lacks the bearer prefix, or the only
    call is the identity check and the provider answered it with a status
    other than 200 or with a falsy JSON body. *)
Theorem unauthorized_only_for_authentication (ep : endpoint)
    (authorization : option string) (W : World) (s s' : state) (r : result json) :
  ep <> GET_user_info ->
  serve ep authorization W s = (r, s') ->
  http_status r = 401 ->
  (new_calls s s' = [] /\
   (authorization = None \/
    exists a, authorization = Some a /\ startswith a "Bearer " = false)) \/
  (exists token resp,
     new_calls s s' = [(verify_user_call token, Ret resp)] /\
     (status_code resp <> 200 \/
      exists user_info, json_body resp = Ret user_info /\ truthy user_info = false)).
Proof.
  intros Hep H Hst.
  destruct ep; try (exfalso; apply Hep; reflexivity); run H;
    try discriminate Hst;
    repeat match goal with
           | E : (status_code _ =? 200) = false |- _ => apply Z.eqb_neq in E
           | E : negb (truthy _) = true |- _ => apply (proj1 (negb_true_iff _)) in E
           | E : negb (negb (_ =? "")%string) || _ = true |- _ =>
               apply no_bearer_prefix in E
           end;
    first [ left; split; [reflexivity|]; first [left; reflexivity | right; eauto]
          | right; do 2 eexists; split; [reflexivity|];
            first [left; assumption | right; eauto] ].
Qed.

(** X18: a listing that succeeds returns what the table store returned for
    the select, as it came, together with its length and the caller's
    id. *)
Theorem listing_returns_rows_verbatim (authorization : option string)
    (limit offset : Z) (W : World) (s s' : state) (a : json) :
  get_my_certificates authorization limit offset W s = (Done a, s') ->
  exists token vresp user_info uid params resp data n,
    new_calls s s' =
      [(verify_user_call token, Ret vresp);
       (select_records_call "certificates" params, Ret resp)] /\
    json_body vresp = Ret user_info /\
    getitem user_info "id" = Ret uid /\
    status_code resp = 200 /\
    json_body resp = Ret data /\
    len data = Ret n /\
    a = JDict [("user_id", uid); ("certificates", data); ("count", JInt n)].
Proof.
  remember (Done a) as r eqn:Er. intros H.
  run H; try discriminate Er; injection Er as <-;
    repeat match goal with
           | E : negb (status_code _ =? 200) = false |- _ =>
               apply (proj1 (negb_false_iff _)) in E; apply Z.eqb_eq in E
           end;
    do 8 eexists; repeat (split; [first [reflexivity | eassumption]|]);
    reflexivity.
Qed.

(** X19: certificates-by-device answers 404 exactly when the table store
    answered the select with status 200 and a falsy JSON body (an empty
    list, but also null or an empty object). *)
Theorem not_found_iff_empty_result (model : string)
    (authorization : option string) (W : World) (s s' : state) (r : result json) :
  get_certificates_by_device model authorization W s = (r, s') ->
  (http_status r = 404 <->
   exists table params resp data,
     In (select_records_call table params, Ret resp) (new_calls s s') /\
     status_code resp = 200 /\
     json_body resp = Ret data /\
     truthy data = false).
Proof.
  intros H. run H; (split; [intros Hst; try discriminate Hst|]);
    repeat match goal with
           | E : negb (status_code _ =? 200) = false |- _ =>
               apply (proj1 (negb_false_iff _)) in E; apply Z.eqb_eq in E
           | E : negb (status_code _ =? 200) = true |- _ =>
               apply (proj1 (negb_true_iff _)) in E; apply Z.eqb_neq in E
           | E : negb (truthy _) = true |- _ => apply (proj1 (negb_true_iff _)) in E
           | E : negb (truthy _) = false |- _ => apply (proj1 (negb_false_iff _)) in E
           end;
    try (do 4 eexists; split; [cbn [In]; right; left; reflexivity|]; eauto; fail);
    try (intros (table & params & resp & data & Hin & Hok & Hbody & Hfalsy);
         try reflexivity; exfalso;
         find_call Hin; apply ret_inj in Hr; subst; congruence).
Qed.

(** X20: a user-info call that succeeds has made the identity check only
    and echoes the identity the provider returned: its id, its email
    (null when the identity has none) and the flag authenticated. *)
Theorem user_info_echoes_identity (authorization : option string)
    (W : World) (s s' : state) (a : json) :
  get_user_info authorization W s = (Done a, s') ->
  exists token resp user_info uid email,
    new_calls s s' = [(verify_user_call token, Ret resp)] /\
    status_code resp = 200 /\
    json_body resp = Ret user_info /\
    getitem user_info "id" = Ret uid /\
    get user_info "email" JNull = Ret email /\
    a = JDict [("user_id", uid); ("email", email); ("authenticated", JBool true)].
Proof.
  remember (Done a) as r eqn:Er. intros H.
  run H; try discriminate Er. injection Er as <-.
  match goal with
  | E : (status_code _ =? 200) = true |- _ => apply Z.eqb_eq in E
  end.
  do 5 eexists. repeat (split; [first [reflexivity | eassumption]|]).
  reflexivity.
Qed.

End Service.

(** ** The properties on sample inputs *)

(** The three cases of the fallback order on concrete inputs. *)
Lemma resolve_fallback_order_witness :
  resolve f_manufacturer
    (JDict [("manufacturer", JStr "Acme");
            ("media_information", JDict [("manufacturer", JStr "Other")])])
  = Ret (JStr "Acme") /\
  resolve f_model
    (JDict [("model", JStr "");
            ("media_information", JDict [("model", JStr "SSD-500")])])
  = Ret (JStr "SSD-500") /\
  resolve f_serial_number (JDict []) = Ret (JStr "Unknown").
Proof.
  split; [|split].
  - apply (proj1 (resolve_fallback_order f_manufacturer _) (JStr "Acme"));
      reflexivity.
  - apply (proj1 (proj2 (resolve_fallback_order f_model _))
             [("model", JStr "SSD-500")] (JStr "SSD-500")); reflexivity.
  - apply (proj2 (proj2 (resolve_fallback_order f_serial_number []))).
    + reflexivity.
    + left; reflexivity.
Defined.

(** C1 as stated fails twice: with both keys present the nested value is
    taken when the top-level one is falsy, and a field whose chain has no
    third operand resolves to null, not to a placeholder string, when
    neither key is present. *)
Lemma resolve_top_level_counterexample :
  let data := JDict [("model", JStr "");
                     ("media_information", JDict [("model", JStr "SSD-500")])] in
  get data "model" JNull = Ret (JStr "") /\
  nested_get data "media_information" "model" = Ret (JStr "SSD-500") /\
  resolve f_model data <> Ret (JStr "") /\
  resolve f_sanitization_method (JDict []) = Ret JNull.
Proof.
  cbv zeta. repeat split; try reflexivity. discriminate.
Qed.

(** An expired token on user-info: the identity provider answers 401 and
    so does the endpoint. *)
Lemma protected_endpoints_answer_401_witness :
  let W := sample_world (answers 401 "invalid JWT" JNull) (answers 200 "" JNull)
             (answers 201 "" JNull) (answers 200 "[]" (JList [])) in
  let run := serve sample_url sample_key sample_repr sample_doc_build strict_str
               GET_user_info (Some "Bearer expired") W start in
  In (verify_user_call "expired", answers 401 "invalid JWT" JNull)
     (new_calls start (snd run)) /\
  http_status (fst run) = 401.
Proof.
  cbv zeta. split.
  - vm_compute. left; reflexivity.
  - eapply (protected_endpoints_answer_401 sample_url sample_key sample_repr
              sample_doc_build strict_str GET_user_info).
    + reflexivity.
    + apply surjective_pairing.
    + right; right.
      exists "expired", (mkResponse 401 "invalid JWT" (Ret JNull)).
      split; [vm_compute; left; reflexivity | vm_compute; discriminate].
Defined.

(** The storage answers the upload with 403: the endpoint answers 500 and
    nothing is inserted. *)
Lemma upload_failure_answers_500_without_insert_witness :
  let W := sample_world (answers 200 "" sample_user) (answers 403 "Forbidden" JNull)
             (answers 201 "" JNull) (answers 200 "[]" (JList [])) in
  let run := generate_certificate sample_url sample_key sample_repr
               sample_doc_build strict_str
               (mkRequest (Ret ssd500_acme)) (Some "Bearer good") W start in
  http_status (fst run) = 500 /\
  forall c o, In (c, o) (new_calls start (snd run)) -> is_insert_call c = false.
Proof.
  cbv zeta.
  eapply (upload_failure_answers_500_without_insert sample_url sample_key
            sample_repr sample_doc_build strict_str _ _ _ _ _ _
            (surjective_pairing _)
            "certificates"
            "cert_user-1_SSD-500_00000000-0000-4000-8000-000000000000.pdf"
            "%PDF-1.4" (mkResponse 403 "Forbidden" (Ret JNull))).
  - vm_compute. right; left; reflexivity.
  - unfold non_2xx; cbn [status_code]; lia.
Defined.

(** C4 as stated fails: certificates-by-device answers 404 when the table
    holds no certificate of that model for the caller. *)
Lemma device_without_certificates_counterexample :
  let W := sample_world (answers 200 "" sample_user) (answers 200 "" JNull)
             (answers 201 "" JNull) (answers 200 "[]" (JList [])) in
  fst (serve sample_url sample_key sample_repr sample_doc_build strict_str
         (GET_certificates_by_device "SSD-500") (Some "Bearer good") W start)
  = Throw (HTTPException 404 "No certificates found").
Proof. vm_compute. reflexivity. Qed.

(** A refused upload: the detail of the 500 carries the storage's text. *)
Lemma downstream_failures_answer_500_witness :
  let W := sample_world (answers 200 "" sample_user) (answers 403 "Forbidden" JNull)
             (answers 201 "" JNull) (answers 200 "[]" (JList [])) in
  let run := serve sample_url sample_key sample_repr sample_doc_build strict_str
               (POST_generate_certificate (mkRequest (Ret ssd500_acme)))
               (Some "Bearer good") W start in
  exists d, fst run = Throw (HTTPException 500 d) /\ contains d "Forbidden" = true.
Proof.
  cbv zeta.
  apply (downstream_failures_answer_500 sample_url sample_key sample_repr
           sample_doc_build strict_str _ _ _ _ _ _ (surjective_pairing _)
           (upload_file_call "certificates"
              "cert_user-1_SSD-500_00000000-0000-4000-8000-000000000000.pdf"
              "%PDF-1.4")
           (mkResponse 403 "Forbidden" (Ret JNull))).
  - vm_compute. right; left; reflexivity.
  - unfold non_2xx; cbn [status_code]; lia.
Defined.

(** C5 as stated fails on the read endpoints: the detail of the 500 is a
    fixed text and does not contain what the table store answered. *)
Lemma my_certificates_detail_counterexample :
  let W := sample_world (answers 200 "" sample_user) (answers 200 "" JNull)
             (answers 201 "" JNull) (answers 503 "upstream exploded" JNull) in
  let run := serve sample_url sample_key sample_repr sample_doc_build strict_str
               (GET_my_certificates 10 0) (Some "Bearer good") W start in
  In (select_records_call "certificates"
        [("user_id", JStr "eq.user-1"); ("limit", JInt 10)],
      answers 503 "upstream exploded" JNull) (new_calls start (snd run)) /\
  fst run = Throw (HTTPException 500 "Database error") /\
  contains "Database error" "upstream exploded" = false.
Proof.
  cbv zeta. split; [|split].
  - vm_compute. right; left; reflexivity.
  - vm_compute. reflexivity.
  - vm_compute. reflexivity.
Qed.

(** A body that is not JSON: the parser's message is the detail of the
    500. *)
Lemma other_exceptions_answer_with_message_witness :
  let W := sample_world (answers 200 "" sample_user) (answers 200 "" JNull)
             (answers 201 "" JNull) (answers 200 "[]" (JList [])) in
  let unparsable :=
    mkRequest (Raise (Exception "Expecting value: line 1 column 1 (char 0)")) in
  fst (serve sample_url sample_key sample_repr sample_doc_build strict_str
         (POST_generate_certificate unparsable) (Some "Bearer good") W start)
  = Throw (HTTPException 500 "Expecting value: line 1 column 1 (char 0)").
Proof.
  cbv zeta.
  rewrite (other_exceptions_answer_with_message sample_url sample_key sample_repr
             sample_doc_build strict_str _ _ _ _
             (mkState [(verify_user_call "good", answers 200 "" sample_user)] 0 0)
             (Exception "Expecting value: line 1 column 1 (char 0)")).
  - reflexivity.
  - vm_compute. reflexivity.
Defined.

(** C6 as stated fails on user-info: an identity payload without the 'id'
    field raises a KeyError, and the endpoint answers 401, not 500. *)
Lemma user_info_missing_id_counterexample :
  let W := sample_world
             (answers 200 "" (JDict [("email", JStr "operator@example.com")]))
             (answers 200 "" JNull) (answers 201 "" JNull)
             (answers 200 "[]" (JList [])) in
  fst (try_block sample_url sample_key sample_repr sample_doc_build strict_str
         GET_user_info (Some "Bearer good") W start)
  = Throw (Error (KeyError "'id'")) /\
  fst (serve sample_url sample_key sample_repr sample_doc_build strict_str
         GET_user_info (Some "Bearer good") W start)
  = Throw (HTTPException 401 "'id'").
Proof. cbv zeta. split; vm_compute; reflexivity. Qed.

(** The scenario itself, in a world where every collaborator accepts. *)
Lemma ssd500_acme_record_witness :
  let W := sample_world (answers 200 "" sample_user) (answers 200 "" JNull)
             (answers 201 "" JNull) (answers 200 "[]" (JList [])) in
  let run := generate_certificate sample_url sample_key sample_repr
               sample_doc_build strict_str
               (mkRequest (Ret ssd500_acme)) (Some "Bearer good") W start in
  exists record o,
    In (insert_record_call "certificates" (JDict record), o)
       (new_calls start (snd run)) /\
    dict_get record "model" = Some (JStr "SSD-500") /\
    dict_get record "manufacturer" = Some (JStr "Acme").
Proof.
  cbv zeta.
  apply (ssd500_acme_record sample_url sample_key sample_repr sample_doc_build
           strict_str _ _ _ _ _ (surjective_pairing _)).
  exists "certificates",
         "cert_user-1_SSD-500_00000000-0000-4000-8000-000000000000.pdf",
         "%PDF-1.4", (mkResponse 200 "" (Ret JNull)).
  split; [vm_compute; right; left; reflexivity | reflexivity].
Defined.

(** Two requests that differ in their token and in the spelling of the
    model, in worlds that differ in what the storage answers, get the same
    URL. *)
Lemma storage_url_deterministic_witness :
  let W1 := sample_world (answers 200 "" sample_user) (answers 200 "" JNull)
              (answers 201 "" JNull) (answers 200 "[]" (JList [])) in
  let W2 := sample_world (answers 200 "" sample_user) (answers 201 "stored" JNull)
              (answers 200 "" JNull) (answers 200 "[]" (JList [])) in
  let gc := generate_certificate sample_url sample_key sample_repr
              sample_doc_build strict_str in
  exists r1 r2 s1 s2,
    gc (mkRequest (Ret (JDict [("model", JStr "SSD 500")])))
       (Some "Bearer one") W1 start = (Done r1, s1) /\
    gc (mkRequest (Ret (JDict [("model", JStr "SSD/500")])))
       (Some "Bearer two") W2 start = (Done r2, s2) /\
    device_model r1 <> device_model r2 /\
    pdf_url r1 = pdf_url r2.
Proof.
  cbv zeta.
  pose (W1 := sample_world (answers 200 "" sample_user) (answers 200 "" JNull)
                (answers 201 "" JNull) (answers 200 "[]" (JList []))).
  pose (W2 := sample_world (answers 200 "" sample_user) (answers 201 "stored" JNull)
                (answers 200 "" JNull) (answers 200 "[]" (JList []))).
  pose (run1 := generate_certificate sample_url sample_key sample_repr
                  sample_doc_build strict_str
                  (mkRequest (Ret (JDict [("model", JStr "SSD 500")])))
                  (Some "Bearer one") W1 start).
  pose (run2 := generate_certificate sample_url sample_key sample_repr
                  sample_doc_build strict_str
                  (mkRequest (Ret (JDict [("model", JStr "SSD/500")])))
                  (Some "Bearer two") W2 start).
  destruct run1 as [[r1|x1] s1] eqn:H1; [|vm_compute in H1; discriminate H1].
  destruct run2 as [[r2|x2] s2] eqn:H2; [|vm_compute in H2; discriminate H2].
  exists r1, r2, s1, s2.
  split; [exact H1|]. split; [exact H2|].
  assert (E1 : r1 = fst (match run1 with (Done r, s) => (r, s) | _ => (r1, s1) end))
    by (subst run1; rewrite H1; reflexivity).
  assert (E2 : r2 = fst (match run2 with (Done r, s) => (r, s) | _ => (r2, s2) end))
    by (subst run2; rewrite H2; reflexivity).
  vm_compute in E1, E2.
  split; [rewrite E1, E2; discriminate|].
  apply (storage_url_deterministic sample_url sample_key sample_repr
           sample_doc_build strict_str _ _ _ _ _ _ _ _ _ _ _ _ H1 H2);
    rewrite E1, E2; reflexivity.
Defined.




(** ** The further properties on sample inputs *)

(** A null media_information and no top-level model. *)
Lemma resolve_raises_iff_witness :
  resolve f_model (JDict [("media_information", JNull)]) =
  Raise (AttributeError "NoneType" "get").
Proof.
  apply (proj2 (resolve_raises_iff f_model [("media_information", JNull)] _)).
  split; [reflexivity|]. exists JNull. repeat split.
Defined.

(** tool_information given as a list. *)
Lemma lenient_section_not_object_as_absent_witness :
  story sample_repr (JDict [("tool_information", JList [JStr "dd"])]) "id" =
  story sample_repr (JDict []) "id".
Proof.
  apply (lenient_section_not_object_as_absent sample_repr
           [("tool_information", JList [JStr "dd"])] "tool_information"
           (JList [JStr "dd"]) "id").
  - right; left; reflexivity.
  - reflexivity.
  - reflexivity.
Defined.


(** Two passes, two tools. *)
Lemma lists_render_as_count_and_joined_witness :
  let data :=
    [("sanitization_details",
      JDict [("passes_performed", JList [JInt 1; JInt 2])]);
     ("host_system_information",
      JDict [("tools_used", JList [JStr "dd"; JStr "shred"])])] in
  exists st,
    story sample_repr (JDict data) "id" = Ret st /\
    In [label "Passes Performed:"; Paragraph (JStr "2") value_style;
        label "Verification Status:"; Paragraph NA success_style] (rows st) /\
    In [label "Tools Used:"; Paragraph (JStr "dd, shred") value_style;
        label ""; Paragraph (JStr "") value_style] (rows st).
Proof.
  cbv zeta.
  match goal with
  | |- exists st, ?run = _ /\ _ => destruct run as [st|e] eqn:H
  end; [|vm_compute in H; discriminate H].
  exists st. split; [reflexivity|].
  destruct (lists_render_as_count_and_joined sample_repr _ _ _ H)
    as (Hpasses & Htools & _).
  split.
  - exact (Hpasses [("passes_performed", JList [JInt 1; JInt 2])] (JInt 1)
             [JInt 2] eq_refl eq_refl).
  - exact (Htools [("tools_used", JList [JStr "dd"; JStr "shred"])] "dd"
             ["shred"] eq_refl eq_refl).
Defined.

(** A listing that succeeds: the identity check, then the select. *)
Lemma calls_follow_the_plan_witness :
  let W := sample_world (answers 200 "" sample_user) (answers 200 "" JNull)
             (answers 201 "" JNull) (answers 200 "[]" (JList [])) in
  let run := serve sample_url sample_key sample_repr sample_doc_build strict_str
               (GET_my_certificates 10 0) (Some "Bearer good") W start in
  kinds (new_calls start (snd run)) = [verify_kind; select_kind].
Proof.
  cbv zeta. change [verify_kind; select_kind] with (plan (GET_my_certificates 10 0)).
  eapply (proj1 (proj2 (calls_follow_the_plan sample_url sample_key sample_repr
                          sample_doc_build strict_str (GET_my_certificates 10 0)
                          _ _ _ _ _ (surjective_pairing _)))
            (JDict [("user_id", JStr "user-1"); ("certificates", JList []);
                    ("count", JInt 0)])).
  vm_compute. reflexivity.
Defined.

(** The select of a listing comes after an accepted identity check. *)
Lemma downstream_calls_need_accepted_token_witness :
  let W := sample_world (answers 200 "" sample_user) (answers 200 "" JNull)
             (answers 201 "" JNull) (answers 200 "[]" (JList [])) in
  let run := serve sample_url sample_key sample_repr sample_doc_build strict_str
               (GET_my_certificates 10 0) (Some "Bearer good") W start in
  exists token resp user_info rest,
    new_calls start (snd run) = (verify_user_call token, Ret resp) :: rest /\
    status_code resp = 200 /\
    json_body resp = Ret user_info /\
    truthy user_info = true.
Proof.
  cbv zeta.
  apply (downstream_calls_need_accepted_token sample_url sample_key sample_repr
           sample_doc_build strict_str _ _ _ _ _ _ (surjective_pairing _)
           (select_records_call "certificates"
              [("user_id", JStr "eq.user-1"); ("limit", JInt 10)])
           (answers 200 "[]" (JList []))).
  - vm_compute. right; left; reflexivity.
  - discriminate.
Defined.

(** A plain token. *)
Lemma bearer_token_is_forwarded_witness :
  let W := sample_world (answers 200 "" sample_user) (answers 200 "" JNull)
             (answers 201 "" JNull) (answers 200 "[]" (JList [])) in
  let run := serve sample_url sample_key sample_repr sample_doc_build strict_str
               GET_user_info (Some "Bearer abc.def") W start in
  exists o rest, new_calls start (snd run) = (verify_user_call "abc.def", o) :: rest.
Proof.
  cbv zeta.
  apply (bearer_token_is_forwarded sample_url sample_key sample_repr
           sample_doc_build strict_str GET_user_info "abc.def" _ _ _ _
           eq_refl eq_refl (surjective_pairing _)).
Defined.

(** A listing with limit 10 and offset 0: the offset is left out. *)
Lemma select_is_scoped_to_caller_witness :
  let W := sample_world (answers 200 "" sample_user) (answers 200 "" JNull)
             (answers 201 "" JNull) (answers 200 "[]" (JList [])) in
  let run := serve sample_url sample_key sample_repr sample_doc_build strict_str
               (GET_my_certificates 10 0) (Some "Bearer good") W start in
  In (select_records_call "certificates"
        [("user_id", JStr "eq.user-1"); ("limit", JInt 10)],
      answers 200 "[]" (JList [])) (new_calls start (snd run)) /\
  exists token resp user_info uid,
    In (verify_user_call token, Ret resp) (new_calls start (snd run)) /\
    json_body resp = Ret user_info /\
    getitem user_info "id" = Ret uid /\
    "certificates" = "certificates" /\
    [("user_id", JStr "eq.user-1"); ("limit", JInt 10)] =
    ([("user_id", JStr ("eq." ++ str sample_repr uid))] ++
     (if 10 =? 0 then [] else [("limit", JInt 10)]) ++
     (if 0 =? 0 then [] else [("offset", JInt 0)]))%list.
Proof.
  cbv zeta.
  assert (Hin : In (select_records_call "certificates"
                      [("user_id", JStr "eq.user-1"); ("limit", JInt 10)],
                    answers 200 "[]" (JList []))
                   (new_calls start
                      (snd (serve sample_url sample_key sample_repr
                              sample_doc_build strict_str
                              (GET_my_certificates 10 0) (Some "Bearer good")
                              (sample_world (answers 200 "" sample_user)
                                 (answers 200 "" JNull) (answers 201 "" JNull)
                                 (answers 200 "[]" (JList []))) start))))
    by (vm_compute; right; left; reflexivity).
  split; [exact Hin|].
  exact (select_is_scoped_to_caller sample_url sample_key sample_repr
           sample_doc_build strict_str _ _ _ _ _ _ _ _ _
           (surjective_pairing _) Hin).
Defined.

(** The storage answers the upload with 204. *)
Lemma rejected_answer_ends_the_run_witness :
  let W := sample_world (answers 200 "" sample_user) (answers 204 "" JNull)
             (answers 201 "" JNull) (answers 200 "[]" (JList [])) in
  let run := serve sample_url sample_key sample_repr sample_doc_build strict_str
               (POST_generate_certificate (mkRequest (Ret ssd500_acme)))
               (Some "Bearer good") W start in
  http_status (fst run) = 500 /\
  exists before,
    new_calls start (snd run) =
    (before ++
     [(upload_file_call "certificates"
         "cert_user-1_SSD-500_00000000-0000-4000-8000-000000000000.pdf"
         "%PDF-1.4", answers 204 "" JNull)])%list.
Proof.
  cbv zeta.
  apply (rejected_answer_ends_the_run sample_url sample_key sample_repr
           sample_doc_build strict_str _ _ _ _ _ _ _ _ (surjective_pairing _)).
  - vm_compute. right; left; reflexivity.
  - reflexivity.
Defined.

(** The table store answers the insert with 409 after the storage took
    the file. *)
Lemma failed_insert_leaves_uploaded_file_witness :
  let W := sample_world (answers 200 "" sample_user) (answers 200 "" JNull)
             (answers 409 "duplicate key" JNull) (answers 200 "[]" (JList [])) in
  let run := generate_certificate sample_url sample_key sample_repr
               sample_doc_build strict_str
               (mkRequest (Ret ssd500_acme)) (Some "Bearer good") W start in
  http_status (fst run) = 500 /\
  exists filename file_data up,
    In (upload_file_call "certificates" filename file_data, Ret up)
       (new_calls start (snd run)) /\
    not_in_200_201 (status_code up) = false.
Proof.
  cbv zeta.
  match goal with
  | |- http_status (fst ?run) = _ /\ _ =>
      assert (Hlog : exists v u record,
                 new_calls start (snd run) =
                 [v; u; (insert_record_call "certificates" record,
                         answers 409 "duplicate key" JNull)])
        by (vm_compute; do 3 eexists; reflexivity)
  end.
  destruct Hlog as (v & u & record & Hlog).
  match goal with
  | |- http_status (fst ?run) = _ /\ _ =>
      destruct (failed_insert_leaves_uploaded_file sample_url sample_key
                  sample_repr sample_doc_build strict_str _ _ _ _ _ _
                  "certificates" record (answers 409 "duplicate key" JNull)
                  (surjective_pairing run))
        as (Hst & filename & file_data & up & fields & Hup & Hok & _)
  end.
  - rewrite Hlog. right; right; left; reflexivity.
  - reflexivity.
  - split; [exact Hst|]. eauto.
Defined.

(** A run in which every collaborator accepts. *)
Lemma response_matches_stored_record_witness :
  let W := sample_world (answers 200 "" sample_user) (answers 200 "" JNull)
             (answers 201 "" JNull) (answers 200 "[]" (JList [])) in
  let run := generate_certificate sample_url sample_key sample_repr
               sample_doc_build strict_str
               (mkRequest (Ret ssd500_acme)) (Some "Bearer good") W start in
  exists resp fields o,
    fst run = Done resp /\
    In (insert_record_call "certificates" (JDict fields), o)
       (new_calls start (snd run)) /\
    dict_get fields "pdf_url" = Some (JStr (pdf_url resp)) /\
    dict_get fields "certificate_id" = Some (JStr (certificate_id resp)).
Proof.
  cbv zeta.
  match goal with
  | |- exists resp fields o, fst ?run = _ /\ _ =>
      destruct run as [[resp|x] s'] eqn:H; [|vm_compute in H; discriminate H]
  end.
  destruct (response_matches_stored_record sample_url sample_key sample_repr
              sample_doc_build strict_str _ _ _ _ _ _ H)
    as (token & v & filename & file_data & up & fields & ins & Hlog & _ &
        Hurl & Hid & _).
  exists resp, fields, (Ret ins). split; [reflexivity|].
  cbn [snd]. rewrite Hlog. split; [right; right; left; reflexivity|].
  split; assumption.
Defined.

(** The record of the scenario keeps media_information as it came in and
    has null for the sections the input lacks. *)
Lemma record_keeps_sections_verbatim_witness :
  let W := sample_world (answers 200 "" sample_user) (answers 200 "" JNull)
             (answers 201 "" JNull) (answers 200 "[]" (JList [])) in
  let run := generate_certificate sample_url sample_key sample_repr
               sample_doc_build strict_str
               (mkRequest (Ret ssd500_acme)) (Some "Bearer good") W start in
  exists fields o,
    In (insert_record_call "certificates" (JDict fields), o)
       (new_calls start (snd run)) /\
    map fst fields = record_keys /\
    dict_get fields "user_id" = Some (JStr "user-1") /\
    dict_get fields "media_information" = Some (JDict [("model", JStr "SSD-500")]) /\
    dict_get fields "sanitization_event" = Some JNull.
Proof.
  cbv zeta.
  match goal with
  | |- exists fields o, In _ (new_calls start (snd ?run)) /\ _ =>
      assert (Hlog : exists v u record o,
                 new_calls start (snd run) =
                 [v; u; (insert_record_call "certificates" record, o)])
        by (vm_compute; do 4 eexists; reflexivity);
      destruct Hlog as (v & u & record & o & Hlog);
      destruct (record_keeps_sections_verbatim sample_url sample_key sample_repr
                  sample_doc_build strict_str _ _ _ _ _ _
                  "certificates" record o (surjective_pairing run))
        as (_ & fields & d & token & vresp & user_info & uid & email & -> &
            Hreq & Hkeys & Hv & Hbody & Huid & _ & Hfu & _ & Hsections)
  end.
  - rewrite Hlog. right; right; left; reflexivity.
  - exists fields, o. split; [rewrite Hlog; right; right; left; reflexivity|].
    split; [exact Hkeys|].
    cbn [request_json] in Hreq. injection Hreq as <-.
    rewrite Hlog in Hv. cbn [In] in Hv.
    assert (Ev : exists t, v = (verify_user_call t, answers 200 "" sample_user))
      by (vm_compute in Hlog; injection Hlog as <- _ _; eauto).
    destruct Ev as (t & ->).
    destruct Hv as [Hv|[Hv|[Hv|[]]]];
      try (vm_compute in Hlog; injection Hlog as _ <- _; discriminate Hv);
      try discriminate Hv.
    injection Hv as _ <-. cbn [json_body answers] in Hbody.
    injection Hbody as <-. cbn in Huid. injection Huid as <-.
    split; [exact Hfu|].
    split.
    + apply (Hsections "media_information"). cbn. tauto.
    + apply (Hsections "sanitization_event"). cbn. tauto.
Defined.

(** The upload of the scenario. *)
Lemma upload_needs_wellformed_input_witness :
  let W := sample_world (answers 200 "" sample_user) (answers 200 "" JNull)
             (answers 201 "" JNull) (answers 200 "[]" (JList [])) in
  let run := generate_certificate sample_url sample_key sample_repr
               sample_doc_build strict_str
               (mkRequest (Ret ssd500_acme)) (Some "Bearer good") W start in
  In (upload_file_call "certificates"
        "cert_user-1_SSD-500_00000000-0000-4000-8000-000000000000.pdf"
        "%PDF-1.4", answers 200 "" JNull) (new_calls start (snd run)) /\
  exists d m,
    Ret ssd500_acme = Ret (JDict d) /\ resolve f_model (JDict d) = Ret (JStr m).
Proof.
  cbv zeta.
  match goal with
  | |- ?P /\ _ => assert (Hin : P) by (vm_compute; right; left; reflexivity)
  end.
  split; [exact Hin|].
  destruct (upload_needs_wellformed_input sample_url sample_key sample_repr
              sample_doc_build strict_str _ _ _ _ _ _ _ _ _ _
              (surjective_pairing _) Hin)
    as (_ & d & m & _ & _ & _ & _ & _ & Hreq & Hm & _).
  exists d, m. split; assumption.
Defined.

(** A body that is a JSON list. *)
Lemma non_object_body_answers_500_witness :
  let W := sample_world (answers 200 "" sample_user) (answers 200 "" JNull)
             (answers 201 "" JNull) (answers 200 "[]" (JList [])) in
  let run := generate_certificate sample_url sample_key sample_repr
               sample_doc_build strict_str
               (mkRequest (Ret (JList [JInt 1]))) (Some "Bearer good") W start in
  fst run = Throw (HTTPException 500 "'list' object has no attribute 'keys'") /\
  new_calls start (snd run) =
  [(verify_user_call "good", answers 200 "" sample_user)].
Proof.
  cbv zeta.
  apply (non_object_body_answers_500 sample_url sample_key sample_repr
           sample_doc_build strict_str _ _ _ _ _ _ (JList [JInt 1]) "good"
           (mkResponse 200 "" (Ret sample_user))
           [("id", JStr "user-1"); ("email", JStr "operator@example.com")]
           (JStr "user-1") (surjective_pairing _)).
  - reflexivity.
  - reflexivity.
  - vm_compute. left; reflexivity.
  - reflexivity.
  - reflexivity.
  - reflexivity.
Defined.

(** The provider answers 200 with an empty object. *)
Lemma unauthorized_only_for_authentication_witness :
  let W := sample_world (answers 200 "{}" (JDict [])) (answers 200 "" JNull)
             (answers 201 "" JNull) (answers 200 "[]" (JList [])) in
  let run := serve sample_url sample_key sample_repr sample_doc_build strict_str
               (GET_my_certificates 10 0) (Some "Bearer good") W start in
  http_status (fst run) = 401 /\
  exists token resp,
    new_calls start (snd run) = [(verify_user_call token, Ret resp)] /\
    (status_code resp <> 200 \/
     exists user_info, json_body resp = Ret user_info /\ truthy user_info = false).
Proof.
  cbv zeta.
  match goal with
  | |- ?P /\ _ => assert (Hst : P) by (vm_compute; reflexivity)
  end.
  split; [exact Hst|].
  destruct (unauthorized_only_for_authentication sample_url sample_key
              sample_repr sample_doc_build strict_str
              (GET_my_certificates 10 0) _ _ _ _ _
              ltac:(discriminate) (surjective_pairing _) Hst)
    as [[Hlog _] | Hverify].
  - vm_compute in Hlog. discriminate Hlog.
  - exact Hverify.
Defined.

(** The table store returns two rows. *)
Lemma listing_returns_rows_verbatim_witness :
  let rows := JList [JDict [("model", JStr "SSD-500")];
                     JDict [("model", JStr "HDD-1")]] in
  let W := sample_world (answers 200 "" sample_user) (answers 200 "" JNull)
             (answers 201 "" JNull) (answers 200 "[...]" rows) in
  exists s',
    get_my_certificates sample_url sample_key sample_repr
      (Some "Bearer good") 10 0 W start
    = (Done (JDict [("user_id", JStr "user-1"); ("certificates", rows);
                    ("count", JInt 2)]), s').
Proof.
  cbv zeta.
  match goal with
  | |- exists s', ?run = _ =>
      destruct run as [[a|x] s'] eqn:H; [|vm_compute in H; discriminate H]
  end.
  exists s'.
  destruct (listing_returns_rows_verbatim sample_url sample_key sample_repr
              _ _ _ _ _ _ _ H)
    as (token & vresp & user_info & uid & params & resp & data & n & Hlog &
        Hbody & Huid & _ & Hdata & Hlen & ->).
  assert (Es : s' = snd (get_my_certificates sample_url sample_key sample_repr
                           (Some "Bearer good") 10 0
                           (sample_world (answers 200 "" sample_user)
                              (answers 200 "" JNull) (answers 201 "" JNull)
                              (answers 200 "[...]"
                                 (JList [JDict [("model", JStr "SSD-500")];
                                         JDict [("model", JStr "HDD-1")]])))
                           start))
    by (rewrite H; reflexivity).
  rewrite Es in Hlog. vm_compute in Hlog.
  injection Hlog as _ <- _ <-.
  cbn in Hbody, Hdata. injection Hbody as <-. injection Hdata as <-.
  cbn in Huid, Hlen. injection Huid as <-. injection Hlen as <-.
  reflexivity.
Defined.

(** The table store answers 200 with null. *)
Lemma not_found_iff_empty_result_witness :
  let W := sample_world (answers 200 "" sample_user) (answers 200 "" JNull)
             (answers 201 "" JNull) (answers 200 "null" JNull) in
  http_status
    (fst (get_certificates_by_device sample_url sample_key sample_repr
            "SSD-500" (Some "Bearer good") W start)) = 404.
Proof.
  cbv zeta.
  apply (proj2 (not_found_iff_empty_result sample_url sample_key sample_repr
                  _ _ _ _ _ _ (surjective_pairing _))).
  exists "certificates",
         [("user_id", JStr "eq.user-1"); ("model", JStr "eq.SSD-500")],
         (mkResponse 200 "null" (Ret JNull)), JNull.
  split; [vm_compute; right; left; reflexivity|]. repeat split.
Defined.

(** An identity without an email. *)
Lemma user_info_echoes_identity_witness :
  let W := sample_world (answers 200 "" (JDict [("id", JStr "user-1")]))
             (answers 200 "" JNull) (answers 201 "" JNull)
             (answers 200 "[]" (JList [])) in
  exists s',
    get_user_info sample_url sample_key (Some "Bearer good") W start
    = (Done (JDict [("user_id", JStr "user-1"); ("email", JNull);
                    ("authenticated", JBool true)]), s').
Proof.
  cbv zeta.
  match goal with
  | |- exists s', ?run = _ =>
      destruct run as [[a|x] s'] eqn:H; [|vm_compute in H; discriminate H]
  end.
  exists s'.
  destruct (user_info_echoes_identity sample_url sample_key _ _ _ _ _ H)
    as (token & resp & user_info & uid & email & Hlog & _ & Hbody & Huid &
        Hemail & ->).
  assert (Es : s' = snd (get_user_info sample_url sample_key (Some "Bearer good")
                           (sample_world
                              (answers 200 "" (JDict [("id", JStr "user-1")]))
                              (answers 200 "" JNull) (answers 201 "" JNull)
                              (answers 200 "[]" (JList []))) start))
    by (rewrite H; reflexivity).
  rewrite Es in Hlog. vm_compute in Hlog. injection Hlog as _ <-.
  cbn in Hbody. injection Hbody as <-.
  cbn in Huid, Hemail. injection Huid as <-. injection Hemail as <-.
  reflexivity.
Defined.
